(** * Solar PR/GHI pipeline: merge stage and chart statistics

    A shallow embedding of [script.py] ([preprocess_data] and the numerical
    part of [generate_graph], lines 1-169) together with the properties of
    the specification that concern it.

    Conventions of the embedding.
    - A float cell of a CSV file or of a DataFrame column is an [option Q]:
      [None] is NaN (pandas also turns Python's [None] into NaN when it
      builds a float column), [Some q] is a finite value.  Arithmetic on
      the values is exact rational arithmetic; rounding is not modelled.
    - The budget curve needs a real power, so it lives in [R]
      ([Rpower]); again without rounding.
    - A [Timestamp] is a calendar day at midnight (year, month, day);
      time of day is not modelled.
    - A Python exception is a value [Raise e] of the [result] type.
    - The Python dict [data_dict] is an association list in insertion
      order with unique keys: the order of its values is the row order of
      the DataFrame built from it.
    - A [Date] cell of a source file is its text.  A row whose [Date]
      cell is empty (NaN for pandas, NaT once the column is converted) is
      outside the embedding: every row of a table has a date.

    The second part of the file adds the statistics that [preprocess_data]
    prints, the loop of the budget labels, and the folder checker of
    [check_folder.py].  Drawing, printing and the CSV copy of the table
    are not modelled: that [generate_graph] returns means that its
    statistics (lines 107-169) are computed. *)

From Stdlib Require Import ZArith QArith Reals Qreals Lqa Lra Lia.
From Stdlib Require Import List String Ascii Bool.
From Stdlib Require Import Sorting.Permutation Sorting.Sorted.
Import ListNotations.

Set Implicit Arguments.

(* ================================================================== *)
(** ** Exceptions *)

Inductive exn : Type :=
| KeyError (key : string)
| ValueError (msg : string)
| ReadError (msg : string).

Inductive result (A : Type) : Type :=
| Ok (a : A)
| Raise (e : exn).

Arguments Ok {A} a.
Arguments Raise {A} e.

Definition bind {A B : Type} (m : result A) (k : A -> result B) : result B :=
  match m with
  | Ok a => k a
  | Raise e => Raise e
  end.

Notation "x <- m ;; k" := (bind m (fun x => k))
  (at level 61, m at next level, right associativity).

Fixpoint mapM {A B : Type} (f : A -> result B) (l : list A) : result (list B) :=
  match l with
  | [] => Ok []
  | a :: l' => b <- f a ;; bs <- mapM f l' ;; Ok (b :: bs)
  end.

(* ================================================================== *)
(** ** Calendar days *)

Record Timestamp : Type := mkTimestamp { year : Z; month : Z; day : Z }.

Local Open Scope Z_scope.

(** [a < b] and [a <= b] on timestamps: chronological order. *)
Definition ts_ltb (a b : Timestamp) : bool :=
  (year a <? year b)
  || ((year a =? year b)
      && ((month a <? month b) || ((month a =? month b) && (day a <? day b)))).

Definition ts_leb (a b : Timestamp) : bool := negb (ts_ltb b a).

Definition ts_lt (a b : Timestamp) : Prop := ts_ltb a b = true.
Definition ts_le (a b : Timestamp) : Prop := ts_leb a b = true.

Definition is_leap (y : Z) : bool :=
  ((y mod 4 =? 0) && negb (y mod 100 =? 0)) || (y mod 400 =? 0).

Definition days_in_month (y m : Z) : Z :=
  match m with
  | 2 => if is_leap y then 29 else 28
  | 4 | 6 | 9 | 11 => 30
  | _ => 31
  end.

(** Days of the year [y] before the first of month [m]. *)
Definition days_before_month (y m : Z) : Z :=
  match m with
  | 1 => 0 | 2 => 31
  | 3 => 59 | 4 => 90 | 5 => 120 | 6 => 151 | 7 => 181 | 8 => 212
  | 9 => 243 | 10 => 273 | 11 => 304 | _ => 334
  end + (if (2 <? m) && is_leap y then 1 else 0).

Definition days_before_year (y : Z) : Z :=
  let p := y - 1 in p * 365 + p / 4 - p / 100 + p / 400.

(** Proleptic Gregorian ordinal, day 1 being 0001-01-01. *)
Definition toordinal (t : Timestamp) : Z :=
  days_before_year (year t) + days_before_month (year t) (month t) + day t.

Definition valid_date (t : Timestamp) : Prop :=
  1 <= month t <= 12 /\ 1 <= day t <= days_in_month (year t) (month t).

(** [(a - b).days] for two midnight timestamps. *)
Definition days_between (a b : Timestamp) : Z := toordinal a - toordinal b.

(** [Series.min()] and [Series.max()] of a datetime column; [None] is NaT,
    the result on an empty column. *)
Fixpoint ts_min (l : list Timestamp) : option Timestamp :=
  match l with
  | [] => None
  | t :: l' =>
      match ts_min l' with
      | None => Some t
      | Some m => Some (if ts_ltb m t then m else t)
      end
  end.

Fixpoint ts_max (l : list Timestamp) : option Timestamp :=
  match l with
  | [] => None
  | t :: l' =>
      match ts_max l' with
      | None => Some t
      | Some m => Some (if ts_ltb t m then m else t)
      end
  end.

(** A Python number that is an int or the float nan: the fields [.year]
    and [.month] of a timestamp are ints, those of NaT are nan. *)
Inductive pynum : Type :=
| PyInt (z : Z)
| PyNaN.

Definition ts_year (t : option Timestamp) : pynum :=
  match t with Some t => PyInt (year t) | None => PyNaN end.

Definition ts_month (t : option Timestamp) : pynum :=
  match t with Some t => PyInt (month t) | None => PyNaN end.

(** [a >= b]: every comparison with nan is False. *)
Definition py_geb (a : pynum) (b : Z) : bool :=
  match a with PyInt z => b <=? z | PyNaN => false end.

Definition py_sub (a : pynum) (b : Z) : pynum :=
  match a with PyInt z => PyInt (z - b) | PyNaN => PyNaN end.

(** [pd.Timestamp(f'{ref_year}-07-01')].  For an int the text is the
    ISO date of July 1 of that year; for nan the text is "nan-07-01",
    which is no date, and the constructor raises ValueError. *)
Definition Timestamp_july_first (ref_year : pynum) : result Timestamp :=
  match ref_year with
  | PyInt y => Ok (mkTimestamp y 7 1)
  | PyNaN => Raise (ValueError "nan-07-01")
  end.

Local Close Scope Z_scope.

(* ================================================================== *)
(** ** Float columns: mean, tail, rolling mean *)

Definition Series : Type := list (option Q).

Local Open Scope Q_scope.

Definition Qltb (x y : Q) : bool := negb (Qle_bool y x).

(** The values of a column that are not NaN, in order. *)
Fixpoint dropna (s : Series) : list Q :=
  match s with
  | [] => []
  | Some q :: s' => q :: dropna s'
  | None :: s' => dropna s'
  end.

Definition Qsum (l : list Q) : Q := fold_right Qplus 0 l.

Definition Qlen (l : list Q) : Q := inject_Z (Z.of_nat (List.length l)).

(** [Series.mean()]: NaN values are skipped; the mean of no value is NaN. *)
Definition mean (s : Series) : option Q :=
  match dropna s with
  | [] => None
  | xs => Some (Qsum xs / Qlen xs)
  end.

(** [Series.tail(n)], which pandas defines as [iloc[0:0]] for [n = 0] and
    [iloc[-n:]] otherwise: the slice starts at [max (len - n) 0]. *)
Definition tail {A : Type} (n : nat) (s : list A) : list A :=
  if Nat.eqb n 0 then [] else skipn (List.length s - n) s.

(** Rows [max (i - w + 1) 0 .. i] of a column: the trailing window of
    width [w] that ends at row [i]. *)
Definition window_at {A : Type} (w i : nat) (s : list A) : list A :=
  skipn (S i - w) (firstn (S i) s).

(** [Series.rolling(window=w, min_periods=mp).mean()]: at each row the
    mean of the values of the trailing window that are not NaN, and NaN
    when fewer than [mp] such values are in the window. *)
Definition rolling_mean (w mp : nat) (s : Series) : Series :=
  map (fun i =>
         let win := window_at w i s in
         if Nat.leb mp (List.length (dropna win)) then mean win else None)
      (seq 0 (List.length s)).

(* ================================================================== *)
(** ** Colour bands of the daily irradiation *)

Definition get_ghi_color (ghi : option Q) : string :=
  match ghi with
  | None => "#808080"
  | Some ghi =>
      if Qltb ghi 2 then "#00008B"
      else if Qle_bool 2 ghi && Qltb ghi 4 then "#4169E1"
      else if Qle_bool 4 ghi && Qltb ghi 6 then "#FFA500"
      else "#8B4513"
  end.

(** The patches of the legend: colour and label. *)
Definition legend_elements : list (string * string) :=
  [ ("#00008B", "< 2"); ("#4169E1", "2~4");
    ("#FFA500", "4~6"); ("#8B4513", "> 6") ]%string.

Fixpoint legend_label (color : string) (legend : list (string * string))
  : option string :=
  match legend with
  | [] => None
  | (c, l) :: legend' =>
      if String.eqb c color then Some l else legend_label color legend'
  end.

Local Close Scope Q_scope.

(* ================================================================== *)
(** ** Budget curve *)

Local Open Scope R_scope.

Definition initial_budget : R := 73.9.
Definition annual_reduction : R := 0.008.

Definition years_elapsed (budget_start_date date : Timestamp) : R :=
  IZR (days_between date budget_start_date) / 365.25.

Definition calculate_budget_pr (budget_start_date date : Timestamp) : R :=
  initial_budget
  * Rpower (1 - annual_reduction) (years_elapsed budget_start_date date).

(** [PR > Budget_PR] as 0 or 1; a missing PR is not above anything. *)
Definition above_budget (pr : option Q) (budget : R) : nat :=
  match pr with
  | None => 0%nat
  | Some q => if Rlt_dec budget (Q2R q) then 1%nat else 0%nat
  end.

Local Close Scope R_scope.

(* ================================================================== *)
(** ** Sorting *)

Section Sorting.
Context {A : Type} (leb : A -> A -> bool).

Fixpoint insert_sorted (x : A) (l : list A) : list A :=
  match l with
  | [] => [x]
  | y :: l' => if leb x y then x :: l else y :: insert_sorted x l'
  end.

(** Python's [sorted]: ascending and stable. *)
Definition sorted (l : list A) : list A := fold_right insert_sorted [] l.
End Sorting.

(* ================================================================== *)
(** ** The merge stage: [preprocess_data] *)

(** One row of a source file: its [Date] cell, as text, and its value
    cell ([PR] or [GHI]). *)
Definition Row : Type := (string * option Q)%type.

(** The dict [{'Date': date, 'PR': ..., 'GHI': ...}] kept for one key. *)
Record DateEntry : Type :=
  mkEntry { entry_Date : string; entry_PR : option Q; entry_GHI : option Q }.

(** [data_dict]: keys in insertion order, each key once. *)
Definition data_dict : Type := list (string * DateEntry).

(** One row of the merged table, columns [Date], [GHI], [PR]. *)
Record DateRecord : Type :=
  mkRecord { Date : Timestamp; GHI : option Q; PR : option Q }.

Definition DataFrame : Type := list DateRecord.

Fixpoint dict_get (date : string) (d : data_dict) : option DateEntry :=
  match d with
  | [] => None
  | (k, e) :: d' => if String.eqb k date then Some e else dict_get date d'
  end.

Definition dict_mem (date : string) (d : data_dict) : bool :=
  match dict_get date d with Some _ => true | None => false end.

(** [data_dict[date][field] = value], for a key that is in the dict: the
    entry is updated where it stands. *)
Fixpoint dict_modify (date : string) (f : DateEntry -> DateEntry)
  (d : data_dict) : data_dict :=
  match d with
  | [] => []
  | (k, e) :: d' =>
      if String.eqb k date then (k, f e) :: d'
      else (k, e) :: dict_modify date f d'
  end.

(** [if date not in data_dict: data_dict[date] = {...}]. *)
Definition dict_setdefault (date : string) (d : data_dict) : data_dict :=
  if dict_mem date d then d else d ++ [(date, mkEntry date None None)].

Definition with_PR (v : option Q) (e : DateEntry) : DateEntry :=
  mkEntry (entry_Date e) v (entry_GHI e).

Definition with_GHI (v : option Q) (e : DateEntry) : DateEntry :=
  mkEntry (entry_Date e) (entry_PR e) v.

(** The body of the loop over the rows of a PR file. *)
Definition put_PR (d : data_dict) (row : Row) : data_dict :=
  let date := fst row in
  let pr_value := snd row in
  dict_modify date (with_PR pr_value) (dict_setdefault date d).

(** The body of the loop over the rows of a GHI file. *)
Definition put_GHI (d : data_dict) (row : Row) : data_dict :=
  let date := fst row in
  let ghi_value := snd row in
  dict_modify date (with_GHI ghi_value) (dict_setdefault date d).

(** [pd.DataFrame.sort_values('Date')].  Rows with equal dates are kept
    in their former order here; pandas leaves their order open. *)
Definition sort_values (df : DataFrame) : DataFrame :=
  sorted (fun a b => ts_leb (Date a) (Date b)) df.

Section Merge.
(** Paths as [rglob] yields them, with their order [<=]. *)
Variable Path : Type.
Variable path_leb : Path -> Path -> bool.
(** [pd.read_csv] followed by the access to the two columns of each
    row: the rows of the file, or the exception that makes the
    [try] block skip the file.  A file whose column is missing raises at
    its first row, before any write. *)
Variable read_csv : Path -> result (list Row).
(** [pd.to_datetime] on one [Date] cell. *)
Variable to_datetime : string -> result Timestamp.

Definition process_pr_file (d : data_dict) (pr_file : Path) : data_dict :=
  match read_csv pr_file with
  | Ok pr_df => fold_left put_PR pr_df d
  | Raise _ => d
  end.

Definition process_ghi_file (d : data_dict) (ghi_file : Path) : data_dict :=
  match read_csv ghi_file with
  | Ok ghi_df => fold_left put_GHI ghi_df d
  | Raise _ => d
  end.

(** The dict after both loops; [pr_glob] and [ghi_glob] are the paths
    in the order in which [rglob] enumerates them. *)
Definition fold_files (pr_glob ghi_glob : list Path) : data_dict :=
  let pr_files := sorted path_leb pr_glob in
  let d := fold_left process_pr_file pr_files [] in
  let ghi_files := sorted path_leb ghi_glob in
  fold_left process_ghi_file ghi_files d.

(** One entry as a row of the table, its [Date] cell converted.  The
    conversion of the column raises as soon as one cell is no date. *)
Definition to_record (e : DateEntry) : result DateRecord :=
  t <- to_datetime (entry_Date e) ;;
  Ok (mkRecord t (entry_GHI e) (entry_PR e)).

(** Lines 68-74.  A DataFrame built from no record has no column, and
    [df['Date']] raises KeyError. *)
Definition to_frame (d : data_dict) : result DataFrame :=
  match map snd d with
  | [] => Raise (KeyError "Date")
  | records => df <- mapM to_record records ;; Ok (sort_values df)
  end.

(** The table that [preprocess_data] returns.  Its prints and the copy
    that it saves with [to_csv] are left out. *)
Definition preprocess_data (pr_glob ghi_glob : list Path)
  : result DataFrame :=
  to_frame (fold_files pr_glob ghi_glob).
End Merge.

(* ================================================================== *)
(** ** The statistics of [generate_graph] (lines 107-169) *)

Record GraphStats : Type := mkStats {
  df_plot : DataFrame;
  PR_MA_30 : Series;
  color : list string;
  first_date : option Timestamp;
  last_date : option Timestamp;
  budget_start_date : Timestamp;
  Budget_PR : list R;
  points_above_budget : nat;
  total_points : nat;
  percentage_above : Q;
  last_7_avg : option Q;
  last_30_avg : option Q;
  last_60_avg : option Q;
  last_90_avg : option Q;
  last_365_avg : option Q;
  lifetime_avg : option Q
}.

Fixpoint count_above (prs : Series) (budgets : list R) : nat :=
  match prs, budgets with
  | pr :: prs', b :: budgets' => above_budget pr b + count_above prs' budgets'
  | _, _ => 0
  end.

(** [(points_above_budget / total_points * 100) if total_points > 0 else 0] *)
Definition percentage (points_above_budget total_points : nat) : Q :=
  if Nat.ltb 0 total_points
  then (inject_Z (Z.of_nat points_above_budget)
        / inject_Z (Z.of_nat total_points) * 100)%Q
  else 0%Q.

(** The reference year of the budget, from the first date of the plot. *)
Definition reference_year (first_date : option Timestamp) : pynum :=
  if py_geb (ts_month first_date) 7
  then ts_year first_date
  else py_sub (ts_year first_date) 1.

Section Render.
Variable to_datetime : string -> result Timestamp.

(** [if bound: df_plot = df_plot[keep bound]]; an absent or empty bound
    filters nothing. *)
Definition filter_bound (bound : option string)
  (keep : Timestamp -> Timestamp -> bool) (df : DataFrame)
  : result DataFrame :=
  match bound with
  | None => Ok df
  | Some s =>
      if String.eqb s "" then Ok df
      else t <- to_datetime s ;; Ok (filter (fun r => keep t (Date r)) df)
  end.

(** Lines 107-111: the rows to plot. *)
Definition select_rows (df : DataFrame) (start_date end_date : option string)
  : result DataFrame :=
  df_plot <- filter_bound start_date (fun t d => ts_leb t d) df ;;
  filter_bound end_date (fun t d => ts_leb d t) df_plot.

Definition generate_graph (df : DataFrame) (start_date end_date : option string)
  : result GraphStats :=
  df_plot <- select_rows df start_date end_date ;;
  let pr := map PR df_plot in
  let PR_MA_30 := rolling_mean 30 1 pr in
  let color := map (fun r => get_ghi_color (GHI r)) df_plot in
  let first_date := ts_min (map Date df_plot) in
  let last_date := ts_max (map Date df_plot) in
  budget_start_date <- Timestamp_july_first (reference_year first_date) ;;
  let Budget_PR :=
    map (fun r => calculate_budget_pr budget_start_date (Date r)) df_plot in
  let points_above_budget := count_above pr Budget_PR in
  let total_points := List.length df_plot in
  Ok (mkStats df_plot PR_MA_30 color first_date last_date
        budget_start_date Budget_PR points_above_budget total_points
        (percentage points_above_budget total_points)
        (mean (tail 7 pr)) (mean (tail 30 pr)) (mean (tail 60 pr))
        (mean (tail 90 pr)) (mean (tail 365 pr)) (mean pr)).
End Render.

(* ================================================================== *)
(** ** One reading of [pd.to_datetime]: ISO dates

    The instance used in the examples: text of the form [Y-M-D] in decimal
    digits, the month and the day written with or without a leading zero
    (the ISO parser of pandas accepts both), denoting an existing day.
    Anything else raises ValueError. *)

Local Open Scope Z_scope.

Definition digit_of (c : ascii) : option Z :=
  let n := Z.of_N (N_of_ascii c) in
  if (48 <=? n) && (n <=? 57) then Some (n - 48) else None.

(** Reads a run of digits; [acc] is the number read so far, [None] before
    the first digit. *)
Fixpoint read_number (s : string) (acc : option Z) : option Z * string :=
  match s with
  | EmptyString => (acc, s)
  | String c s' =>
      match digit_of c with
      | Some v =>
          read_number s' (Some (10 * match acc with Some a => a | None => 0 end + v))
      | None => (acc, s)
      end
  end.

Definition valid_dateb (t : Timestamp) : bool :=
  (1 <=? month t) && (month t <=? 12)
  && (1 <=? day t) && (day t <=? days_in_month (year t) (month t)).

Definition iso_to_datetime (s : string) : result Timestamp :=
  match read_number s None with
  | (Some y, String "-" s1) =>
      match read_number s1 None with
      | (Some m, String "-" s2) =>
          match read_number s2 None with
          | (Some d, EmptyString) =>
              let t := mkTimestamp y m d in
              if valid_dateb t then Ok t else Raise (ValueError s)
          | _ => Raise (ValueError s)
          end
      | _ => Raise (ValueError s)
      end
  | _ => Raise (ValueError s)
  end.

Local Close Scope Z_scope.

(* ================================================================== *)
(** ** Vocabulary of the statements *)

(** The rows of the files that can be read, in the order of the fold. *)
Definition file_rows {Path : Type} (read_csv : Path -> result (list Row))
  (files : list Path) : list Row :=
  flat_map (fun f => match read_csv f with Ok rows => rows | Raise _ => [] end)
    files.

(** The value cell of the last row written for [date], if there is one. *)
Fixpoint last_value (date : string) (rows : list Row) : option (option Q) :=
  match rows with
  | [] => None
  | (k, v) :: rows' =>
      match last_value date rows' with
      | Some x => Some x
      | None => if String.eqb k date then Some v else None
      end
  end.

(** The field of a record after the rows [rows] were written to it:
    absent when no row is for [date], or when the last one has no value. *)
Definition written (date : string) (rows : list Row) : option Q :=
  match last_value date rows with Some v => v | None => None end.

Definition entry_or_new (date : string) (d : data_dict) : DateEntry :=
  match dict_get date d with Some e => e | None => mkEntry date None None end.

(** The common shape of the two loop bodies. *)
Definition put_field (setf : option Q -> DateEntry -> DateEntry)
  (d : data_dict) (row : Row) : data_dict :=
  dict_modify (fst row) (setf (snd row)) (dict_setdefault (fst row) d).

(** Each key once, and each entry filed under its own date. *)
Definition dict_wf (d : data_dict) : Prop :=
  NoDup (map fst d) /\ Forall (fun p => entry_Date (snd p) = fst p) d.

(** A field [proj] of the record of one date is left alone between two
    states of the dict: unchanged when the record was there, absent when
    the record is new. *)
Definition field_kept (proj : DateEntry -> option Q)
  (before after : option DateEntry) : Prop :=
  match before, after with
  | Some e, Some e' => proj e' = proj e /\ entry_Date e' = entry_Date e
  | Some _, None => False
  | None, Some e' => proj e' = None
  | None, None => True
  end.

(** Every [Date] cell is a date for [to_datetime]. *)
Definition all_parse (to_datetime : string -> result Timestamp)
  (keys : list string) : Prop :=
  forall k, In k keys -> exists t, to_datetime k = Ok t.

(** No two different [Date] cells denote the same day. *)
Definition distinct_dates (to_datetime : string -> result Timestamp)
  (keys : list string) : Prop :=
  forall k1 k2 t,
    In k1 keys -> In k2 keys ->
    to_datetime k1 = Ok t -> to_datetime k2 = Ok t -> k1 = k2.

Local Open Scope string_scope.

(** Two small source trees for the examples. *)
Definition sample_files (p : string) : result (list Row) :=
  if String.eqb p "PR/2024-01/a.csv"
  then Ok [("2024-01-01", Some 70%Q); ("2024-01-02", Some 71%Q)]
  else if String.eqb p "PR/2024-01/b.csv"
  then Ok [("2024-01-02", Some 72%Q)]
  else if String.eqb p "GHI/2024-01/a.csv"
  then Ok [("2024-01-01", Some 5%Q)]
  else Raise (ReadError p).

Definition unpadded_files (p : string) : result (list Row) :=
  if String.eqb p "PR/a.csv" then Ok [("2024-01-01", Some 70%Q)]
  else if String.eqb p "GHI/a.csv" then Ok [("2024-1-1", Some 5%Q)]
  else Raise (ReadError p).

Local Close Scope string_scope.

(** "The last [n] points" in the words of the specification. *)
Definition last_points {A : Type} (n : nat) (s : list A) : list A :=
  rev (firstn n (rev s)).

(* ================================================================== *)
(** ** The statistics printed by [preprocess_data] (lines 76-88) *)

Definition notna (v : option Q) : bool :=
  match v with Some _ => true | None => false end.

Definition isna (v : option Q) : bool := negb (notna v).

(** [.sum()] of a boolean column. *)
Definition column_sum (flags : list bool) : nat :=
  List.length (filter (fun b : bool => b) flags).

Record DataStatistics : Type := mkStatistics {
  dates_with_PR : nat;
  dates_with_GHI : nat;
  dates_with_both : nat;
  missing_PR : nat;
  missing_GHI : nat;
  total_rows : nat;
  date_range : option Timestamp * option Timestamp
}.

Definition data_statistics (df : DataFrame) : DataStatistics :=
  mkStatistics
    (column_sum (map (fun r => notna (PR r)) df))
    (column_sum (map (fun r => notna (GHI r)) df))
    (column_sum (map (fun r => notna (PR r) && notna (GHI r)) df))
    (column_sum (map (fun r => isna (PR r)) df))
    (column_sum (map (fun r => isna (GHI r)) df))
    (List.length df)
    (ts_min (map Date df), ts_max (map Date df)).

(* ================================================================== *)
(** ** The labels of the budget line (lines 171-180) *)

(** [t + pd.DateOffset(years=1)]: the same day of the next year, the
    29th of February becoming the 28th. *)
Definition add_one_year (t : Timestamp) : Timestamp :=
  let y := (year t + 1)%Z in
  mkTimestamp y (month t) (Z.min (day t) (days_in_month y (month t))).

(** The loop [while year_start <= last_date], run for at most [fuel]
    rounds: the budget values that are put into the label, or [None]
    when the rounds do not suffice.  The text of a label rounds its value
    to one decimal; that rounding is left out. *)
Fixpoint budget_years (fuel : nat)
  (budget_start_date year_start last_date : Timestamp) : option (list R) :=
  match fuel with
  | O => None
  | S fuel' =>
      if ts_leb year_start last_date
      then
        let budget_value := calculate_budget_pr budget_start_date year_start in
        match budget_years fuel' budget_start_date
                (add_one_year year_start) last_date with
        | Some years => Some (budget_value :: years)
        | None => None
        end
      else Some []
  end.

(* ================================================================== *)
(** ** The folder checker: [check_folder_structure] of [check_folder.py]

    The working directory is a tree of named files and directories; the
    children of a directory stand in the order in which the system
    enumerates them.  A path is the list of the names from the working
    directory down.  Symbolic links are not modelled. *)

#[warnings="-register-all"]
Inductive FsNode : Type :=
| FsFile (name : string)
| FsDir (name : string) (children : list FsNode).

Definition node_name (n : FsNode) : string :=
  match n with FsFile name => name | FsDir name _ => name end.

Definition is_dir (n : FsNode) : bool :=
  match n with FsFile _ => false | FsDir _ _ => true end.

Definition PathParts : Type := list string.

Inductive os_error : Type :=
| NotADirectoryError (path : PathParts).

(** [path.iterdir()].  Every directory of the tree can be listed; a
    directory that may not be read is not modelled. *)
Definition iterdir (path : PathParts) (n : FsNode)
  : os_error + list (PathParts * FsNode) :=
  match n with
  | FsFile _ => inl (NotADirectoryError path)
  | FsDir _ children =>
      inr (map (fun c => (path ++ [node_name c], c)) children)
  end.

(** [path / name], when it exists. *)
Definition child (name : string) (n : FsNode) : option FsNode :=
  match n with
  | FsFile _ => None
  | FsDir _ children =>
      find (fun c => String.eqb (node_name c) name) children
  end.

(** Everything below a directory, at any depth; below a file, nothing. *)
Fixpoint walk (path : PathParts) (n : FsNode) : list (PathParts * FsNode) :=
  match n with
  | FsFile _ => []
  | FsDir _ children =>
      flat_map (fun c =>
                  let p := path ++ [node_name c] in (p, c) :: walk p c)
        children
  end.

(** The name ends with [suffix]: it matches the pattern [*suffix], letter
    case included, as on POSIX systems. *)
Fixpoint ends_with (suffix name : string) : bool :=
  String.eqb suffix name
  || match name with
     | EmptyString => false
     | String _ name' => ends_with suffix name'
     end.

Definition matching (suffix : string) (entries : list (PathParts * FsNode))
  : list PathParts :=
  map fst (filter (fun pn => ends_with suffix (node_name (snd pn))) entries).

(** [path.glob('*' + suffix)]: among the children. *)
Definition glob (suffix : string) (path : PathParts) (n : FsNode)
  : list PathParts :=
  match iterdir path n with
  | inr entries => matching suffix entries
  | inl _ => []
  end.

(** [path.rglob('*' + suffix)]: at any depth. *)
Definition rglob (suffix : string) (path : PathParts) (n : FsNode)
  : list PathParts :=
  matching suffix (walk path n).

Record PRReport : Type := mkPRReport {
  pr_subdirs_total : nat;
  pr_subdirs_shown : list (string * list PathParts);
  pr_files_total : nat;
  pr_files_shown : list PathParts
}.

Record GHIReport : Type := mkGHIReport {
  ghi_files_total : nat;
  ghi_files_shown : list PathParts
}.

(** What the checker prints; a report that is [None] stands for the
    line that the folder was not found. *)
Record FolderReport : Type := mkFolderReport {
  items_shown : list (bool * string);
  pr_report : option PRReport;
  ghi_report : option GHIReport;
  csv_total : nat;
  csv_shown : list PathParts
}.

Definition by_name (a b : PathParts * FsNode) : bool :=
  String.leb (node_name (snd a)) (node_name (snd b)).

Definition check_pr_folder (cwd : FsNode) : os_error + option PRReport :=
  match child "PR" cwd with
  | None => inr None
  | Some pr_folder =>
      match iterdir ["PR"%string] pr_folder with
      | inl err => inl err
      | inr entries =>
          let pr_subdirs := filter (fun pn => is_dir (snd pn)) entries in
          let shown :=
            map (fun pn =>
                   (node_name (snd pn),
                    firstn 3 (glob ".csv" (fst pn) (snd pn))))
              (firstn 5 (sorted by_name pr_subdirs)) in
          let pr_files := rglob "_PR.csv" ["PR"%string] pr_folder in
          inr (Some (mkPRReport (List.length pr_subdirs) shown
                       (List.length pr_files) (firstn 5 pr_files)))
      end
  end.

Definition check_ghi_folder (cwd : FsNode) : option GHIReport :=
  match child "GHI" cwd with
  | None => None
  | Some ghi_folder =>
      let ghi_files := rglob "_GHI.csv" ["GHI"%string] ghi_folder in
      Some (mkGHIReport (List.length ghi_files) (firstn 5 ghi_files))
  end.

Definition check_folder_structure (cwd : FsNode) : os_error + FolderReport :=
  match iterdir [] cwd with
  | inl err => inl err
  | inr items =>
      let shown :=
        map (fun pn => (is_dir (snd pn), node_name (snd pn)))
          (sorted by_name items) in
      match check_pr_folder cwd with
      | inl err => inl err
      | inr pr =>
          let all_csvs := rglob ".csv" [] cwd in
          inr (mkFolderReport shown pr (check_ghi_folder cwd)
                 (List.length all_csvs) (firstn 10 all_csvs))
      end
  end.

(** The paths that [preprocess_data] enumerates under a folder of the
    working directory: [Path(folder).rglob('*.csv')], nothing when the
    folder is missing. *)
Definition source_files (folder : string) (cwd : FsNode) : list PathParts :=
  match child folder cwd with
  | None => []
  | Some n => rglob ".csv" [folder] n
  end.

(* ================================================================== *)
(** ** More vocabulary *)

(** A value of a column lies in [[lo, hi]], or is NaN. *)
Definition within (lo hi : Q) (v : option Q) : Prop :=
  match v with Some q => (lo <= q /\ q <= hi)%Q | None => True end.

Definition readable {Path : Type} (read_csv : Path -> result (list Row))
  (f : Path) : bool :=
  match read_csv f with Ok _ => true | Raise _ => false end.

(** The year whose first of July opens the budget year of [t]. *)
Definition budget_year_of (t : Timestamp) : Z :=
  if (7 <=? month t)%Z then year t else (year t - 1)%Z.

(** The budget at the first of July of [n] successive years, from the
    year [y] on. *)
Fixpoint yearly_budgets (budget_start_date : Timestamp) (y : Z) (n : nat)
  : list R :=
  match n with
  | O => []
  | S n' =>
      calculate_budget_pr budget_start_date (mkTimestamp y 7 1)
      :: yearly_budgets budget_start_date (y + 1) n'
  end.

(* ================================================================== *)
(** * Properties *)

(** ** Colour bands *)

Local Open Scope Q_scope.

Lemma Qltb_lt (x y : Q) : Qltb x y = true <-> x < y.
Proof.
  unfold Qltb. rewrite negb_true_iff, <- not_true_iff_false, Qle_bool_iff.
  split; [apply Qnot_le_lt | apply Qlt_not_le].
Qed.

Lemma Qltb_ge (x y : Q) : Qltb x y = false <-> y <= x.
Proof.
  unfold Qltb. rewrite negb_false_iff. apply Qle_bool_iff.
Qed.

Example iso_padded : iso_to_datetime "2024-01-01" = Ok (mkTimestamp 2024 1 1).
Proof. reflexivity. Qed.

Example iso_unpadded : iso_to_datetime "2024-1-1" = Ok (mkTimestamp 2024 1 1).
Proof. reflexivity. Qed.

Example iso_no_such_day : iso_to_datetime "2023-02-29" = Raise (ValueError "2023-02-29").
Proof. reflexivity. Qed.

Example color_19 : get_ghi_color (Some 1.9) = "#00008B"%string.
Proof. reflexivity. Qed.

Lemma Qle_bool_false (x y : Q) : Qle_bool x y = false <-> y < x.
Proof.
  rewrite <- not_true_iff_false, Qle_bool_iff.
  split; [apply Qnot_le_lt | apply Qlt_not_le].
Qed.

Ltac band_cases g :=
  unfold get_ghi_color in *;
  destruct (Qltb g 2) eqn:H2; destruct (Qle_bool 2 g) eqn:H2';
  destruct (Qltb g 4) eqn:H4; destruct (Qle_bool 4 g) eqn:H4';
  destruct (Qltb g 6) eqn:H6; simpl in *;
  rewrite ?Qltb_lt, ?Qltb_ge, ?Qle_bool_iff, ?Qle_bool_false in *.

(** C7.  [get_ghi_color] sends a missing GHI to its own colour and every
    GHI value to the colour of exactly one of the bands below 2, [2,4),
    [4,6) and 6 or above; the legend labels these colours "< 2", "2~4",
    "4~6" and "> 6"; 1.9 falls in "< 2", 2.0 and 3.999 in "2~4", 6.0 in
    "> 6". *)
Theorem ghi_color_bands :
  (forall ghi, get_ghi_color ghi = "#808080"%string <-> ghi = None) /\
  (forall g : Q,
      (get_ghi_color (Some g) = "#00008B"%string <-> g < 2) /\
      (get_ghi_color (Some g) = "#4169E1"%string <-> 2 <= g /\ g < 4) /\
      (get_ghi_color (Some g) = "#FFA500"%string <-> 4 <= g /\ g < 6) /\
      (get_ghi_color (Some g) = "#8B4513"%string <-> 6 <= g)) /\
  (legend_label "#00008B" legend_elements = Some "< 2"%string /\
   legend_label "#4169E1" legend_elements = Some "2~4"%string /\
   legend_label "#FFA500" legend_elements = Some "4~6"%string /\
   legend_label "#8B4513" legend_elements = Some "> 6"%string /\
   legend_label "#808080" legend_elements = None) /\
  (get_ghi_color (Some 1.9) = "#00008B"%string /\
   get_ghi_color (Some 2.0) = "#4169E1"%string /\
   get_ghi_color (Some 3.999) = "#4169E1"%string /\
   get_ghi_color (Some 6.0) = "#8B4513"%string /\
   get_ghi_color None = "#808080"%string).
Proof.
  split; [| split; [| split]].
  - intros [g|]; split; intro H; try reflexivity; try discriminate.
    exfalso. revert H. band_cases g; discriminate.
  - intro g. repeat split; band_cases g; intros;
      try discriminate; try reflexivity; try Lqa.lra.
  - repeat split.
  - repeat split.
Qed.

Local Close Scope Q_scope.

(** ** Budget curve *)

Section Calendar.
Local Open Scope Z_scope.

Lemma is_leap_cases (y : Z) :
  (is_leap y = true /\ (y mod 4 = 0 /\ y mod 100 <> 0 \/ y mod 400 = 0))
  \/ (is_leap y = false /\ (y mod 4 <> 0 \/ y mod 100 = 0) /\ y mod 400 <> 0).
Proof.
  unfold is_leap.
  destruct (Z.eqb_spec (y mod 4) 0), (Z.eqb_spec (y mod 100) 0),
    (Z.eqb_spec (y mod 400) 0); simpl; intuition.
Qed.

(** From one first of July to the next: 365 days, and one more when the
    February in between has 29 days. *)
Lemma july_to_july (y : Z) :
  days_between (mkTimestamp (y + 1) 7 1) (mkTimestamp y 7 1)
  = 365 + (if is_leap (y + 1) then 1 else 0).
Proof.
  unfold days_between, toordinal, days_before_year, days_before_month.
  cbn [year month day]. change (2 <? 7) with true. cbn [andb].
  replace (y + 1 - 1) with y by lia.
  destruct (is_leap_cases y) as [[-> Hy] | [-> Hy]];
    destruct (is_leap_cases (y + 1)) as [[-> Hy1] | [-> Hy1]];
    Z.div_mod_to_equations; lia.
Qed.

Lemma days_between_same (t : Timestamp) : days_between t t = 0.
Proof. unfold days_between. lia. Qed.
End Calendar.

Section Budget.
Local Open Scope R_scope.

Lemma base_value : 1 - annual_reduction = 0.992.
Proof. unfold annual_reduction. lra. Qed.

Lemma ln_base_neg : ln 0.992 < 0.
Proof. rewrite <- ln_1. apply ln_increasing; lra. Qed.

(** With a base below 1 the power decreases as the exponent grows. *)
Lemma Rpower_base_decreasing (a b : R) :
  a < b -> Rpower 0.992 b < Rpower 0.992 a.
Proof.
  intro H. unfold Rpower. apply exp_increasing.
  pose proof ln_base_neg. nra.
Qed.

Lemma Rpower_base_inj (a b : R) : Rpower 0.992 a = Rpower 0.992 b -> a = b.
Proof.
  intro H.
  destruct (Rtotal_order a b) as [Hlt | [Heq | Hgt]]; [| exact Heq |].
  - apply Rpower_base_decreasing in Hlt. lra.
  - apply Rpower_base_decreasing in Hgt. lra.
Qed.

Lemma budget_unfold (e d : Timestamp) :
  calculate_budget_pr e d
  = 73.9 * Rpower 0.992 (IZR (days_between d e) / 365.25).
Proof.
  unfold calculate_budget_pr, years_elapsed, initial_budget.
  now rewrite base_value.
Qed.

Lemma budget_at_epoch (e : Timestamp) : calculate_budget_pr e e = 73.9.
Proof.
  rewrite budget_unfold, days_between_same.
  replace (0 / 365.25) with 0 by lra.
  rewrite Rpower_O by lra. lra.
Qed.

Lemma budget_pos (e d : Timestamp) : 0 < calculate_budget_pr e d.
Proof.
  rewrite budget_unfold. apply Rmult_lt_0_compat; [lra |].
  unfold Rpower. apply exp_pos.
Qed.

(** No whole number of days is 365.25 days: the curve never takes the
    value 73.9 * 0.992 on a date. *)
Lemma budget_never_full_year (e d : Timestamp) :
  calculate_budget_pr e d <> 73.9 * 0.992.
Proof.
  rewrite budget_unfold. intro H.
  assert (H1 : Rpower 0.992 (IZR (days_between d e) / 365.25)
               = Rpower 0.992 1).
  { rewrite Rpower_1 by lra. lra. }
  apply Rpower_base_inj in H1.
  assert (H2 : IZR (days_between d e * 4) = IZR 1461).
  { rewrite mult_IZR. lra. }
  apply eq_IZR in H2. lia.
Qed.

Lemma budget_after_days (e d : Timestamp) (n : Z) :
  days_between d e = n ->
  (IZR n < 365.25 -> 73.9 * 0.992 < calculate_budget_pr e d)
  /\ (365.25 < IZR n -> calculate_budget_pr e d < 73.9 * 0.992).
Proof.
  intro Hn. rewrite budget_unfold, Hn.
  rewrite <- (Rpower_1 0.992) at 1 4 by lra.
  split; intro H.
  - apply Rmult_lt_compat_l; [lra |].
    apply Rpower_base_decreasing. lra.
  - apply Rmult_lt_compat_l; [lra |].
    apply Rpower_base_decreasing. lra.
Qed.
End Budget.

(** C1 (amended).  The budget at the reference epoch is 73.9.  One
    calendar year after an epoch (a first of July) 365 or 366 days have
    elapsed, and the budget is 73.9 * 0.992 ^ (days / 365.25): above
    73.9 * 0.992 after 365 days, below it after 366 days, and on no date
    equal to it. *)
Theorem budget_epoch_and_one_year :
  (forall e, calculate_budget_pr e e = 73.9%R) /\
  (forall y,
      let e := mkTimestamp y 7 1 in
      let d := mkTimestamp (y + 1) 7 1 in
      calculate_budget_pr e d
      = (73.9 * Rpower 0.992 (IZR (days_between d e) / 365.25))%R
      /\ ((days_between d e = 365%Z
           /\ (73.9 * 0.992 < calculate_budget_pr e d)%R)
          \/ (days_between d e = 366%Z
              /\ (calculate_budget_pr e d < 73.9 * 0.992)%R))) /\
  (forall e d, calculate_budget_pr e d <> (73.9 * 0.992)%R).
Proof.
  split; [exact budget_at_epoch | split; [| exact budget_never_full_year]].
  intros y e d. split; [apply budget_unfold |].
  pose proof (july_to_july y) as Hd. fold e d in Hd.
  destruct (is_leap (y + 1)); [right | left]; (split; [exact Hd |]).
  - apply (budget_after_days e d Hd). simpl. lra.
  - apply (budget_after_days e d Hd). simpl. lra.
Qed.

(** C1 as stated fails: from 2023-07-01 to 2024-07-01 the budget does
    not come down to 73.9 * 0.992. *)
Lemma budget_one_year_counterexample :
  let e := mkTimestamp 2023 7 1 in
  let d := mkTimestamp 2024 7 1 in
  days_between d e = 366%Z
  /\ ~ (calculate_budget_pr e e = 73.9%R
        /\ calculate_budget_pr e d = (73.9 * 0.992)%R).
Proof.
  split; [reflexivity |].
  intros [_ H]. exact (@budget_never_full_year _ _ H).
Qed.

(** ** Order of the timestamps *)

Section TimestampOrder.
Local Open Scope Z_scope.

Lemma ts_ltb_spec (a b : Timestamp) :
  ts_ltb a b = true <->
  year a < year b
  \/ (year a = year b
      /\ (month a < month b \/ (month a = month b /\ day a < day b))).
Proof.
  unfold ts_ltb.
  rewrite orb_true_iff, andb_true_iff, orb_true_iff, andb_true_iff.
  rewrite !Z.ltb_lt, !Z.eqb_eq. reflexivity.
Qed.

Lemma ts_leb_spec (a b : Timestamp) :
  ts_leb a b = true <->
  year a < year b
  \/ (year a = year b
      /\ (month a < month b \/ (month a = month b /\ day a <= day b))).
Proof.
  unfold ts_leb. rewrite negb_true_iff, <- not_true_iff_false, ts_ltb_spec.
  lia.
Qed.

Lemma ts_eq_fields (a b : Timestamp) :
  year a = year b -> month a = month b -> day a = day b -> a = b.
Proof. destruct a, b; simpl; congruence. Qed.

Lemma ts_le_refl (a : Timestamp) : ts_le a a.
Proof. unfold ts_le. rewrite ts_leb_spec. lia. Qed.

Lemma ts_le_trans (a b c : Timestamp) : ts_le a b -> ts_le b c -> ts_le a c.
Proof. unfold ts_le. rewrite !ts_leb_spec. lia. Qed.

Lemma ts_le_total (a b : Timestamp) : ts_le a b \/ ts_le b a.
Proof. unfold ts_le. rewrite !ts_leb_spec. lia. Qed.

Lemma ts_le_antisym (a b : Timestamp) : ts_le a b -> ts_le b a -> a = b.
Proof.
  unfold ts_le. rewrite !ts_leb_spec. intros H1 H2.
  apply ts_eq_fields; lia.
Qed.

Lemma ts_le_lt_or_eq (a b : Timestamp) : ts_le a b -> ts_lt a b \/ a = b.
Proof.
  unfold ts_le, ts_lt. rewrite ts_leb_spec, ts_ltb_spec. intro H.
  destruct (Z.eq_dec (day a) (day b)) as [Hd | Hd];
    destruct (Z.eq_dec (month a) (month b)) as [Hm | Hm];
    destruct (Z.eq_dec (year a) (year b)) as [Hy | Hy];
    try (left; lia).
  right. now apply ts_eq_fields.
Qed.

Lemma ts_ltb_false_le (a b : Timestamp) : ts_ltb a b = false -> ts_le b a.
Proof. unfold ts_le, ts_leb. now intros ->. Qed.

Lemma ts_lt_le (a b : Timestamp) : ts_lt a b -> ts_le a b.
Proof. unfold ts_le, ts_lt. rewrite ts_leb_spec, ts_ltb_spec. lia. Qed.

(** [min()] of a column that is not empty is one of its dates, and none
    is earlier. *)
Lemma ts_min_spec (l : list Timestamp) :
  l <> [] ->
  exists f, ts_min l = Some f /\ In f l /\ forall t, In t l -> ts_le f t.
Proof.
  induction l as [| t l IH]; [congruence | intros _].
  destruct l as [| t' l'].
  - exists t. simpl. split; [reflexivity | split; [now left |]].
    intros t0 [<- | []]. apply ts_le_refl.
  - destruct IH as (m & Hm & Hin & Hle); [discriminate |].
    change (ts_min (t :: t' :: l'))
      with (match ts_min (t' :: l') with
            | None => Some t
            | Some m => Some (if ts_ltb m t then m else t)
            end).
    rewrite Hm. destruct (ts_ltb m t) eqn:E.
    + exists m. split; [reflexivity | split; [now right |]].
      intros t0 [<- | H0]; [now apply ts_lt_le | now apply Hle].
    + exists t. split; [reflexivity | split; [now left |]].
      intros t0 [<- | H0]; [apply ts_le_refl |].
      apply ts_le_trans with m; [now apply ts_ltb_false_le | now apply Hle].
Qed.

(** The first of July chosen from the first date [f] is the latest first
    of July that is not after [f]. *)
Lemma july_first_latest (f : Timestamp) :
  1 <= day f ->
  let y := if 7 <=? month f then year f else year f - 1 in
  ts_le (mkTimestamp y 7 1) f /\ ts_lt f (mkTimestamp (y + 1) 7 1).
Proof.
  intros Hd y. unfold ts_le, ts_lt. rewrite ts_leb_spec, ts_ltb_spec.
  subst y. cbn [year month day].
  destruct (Z.leb_spec 7 (month f)); cbn [year month day]; lia.
Qed.
End TimestampOrder.

(** ** The statistics of the chart *)

Section RenderFacts.
Variable to_datetime : string -> result Timestamp.

(** What [generate_graph] returns once the reference epoch is known. *)
Lemma generate_graph_run (df plot : DataFrame) (s e : option string)
  (epoch : Timestamp) :
  select_rows to_datetime df s e = Ok plot ->
  Timestamp_july_first (reference_year (ts_min (map Date plot))) = Ok epoch ->
  generate_graph to_datetime df s e
  = Ok (let pr := map PR plot in
        let budgets :=
          map (fun r => calculate_budget_pr epoch (Date r)) plot in
        mkStats plot (rolling_mean 30 1 pr)
          (map (fun r => get_ghi_color (GHI r)) plot)
          (ts_min (map Date plot)) (ts_max (map Date plot))
          epoch budgets (count_above pr budgets) (List.length plot)
          (percentage (count_above pr budgets) (List.length plot))
          (mean (tail 7 pr)) (mean (tail 30 pr)) (mean (tail 60 pr))
          (mean (tail 90 pr)) (mean (tail 365 pr)) (mean pr)).
Proof.
  intros Hs He. unfold generate_graph. rewrite Hs. cbn [bind].
  rewrite He. reflexivity.
Qed.

(** Conversely every result of [generate_graph] has this shape. *)
Lemma generate_graph_inv (df : DataFrame) (s e : option string)
  (st : GraphStats) :
  generate_graph to_datetime df s e = Ok st ->
  let pr := map PR (df_plot st) in
  select_rows to_datetime df s e = Ok (df_plot st)
  /\ PR_MA_30 st = rolling_mean 30 1 pr
  /\ last_7_avg st = mean (tail 7 pr)
  /\ last_30_avg st = mean (tail 30 pr)
  /\ last_60_avg st = mean (tail 60 pr)
  /\ last_90_avg st = mean (tail 90 pr)
  /\ last_365_avg st = mean (tail 365 pr)
  /\ lifetime_avg st = mean pr.
Proof.
  unfold generate_graph.
  destruct (select_rows to_datetime df s e) as [plot | x]; [| discriminate].
  cbn [bind].
  destruct (Timestamp_july_first _) as [epoch | x]; [| discriminate].
  cbn [bind]. intros [= <-]. cbn. repeat split.
Qed.

(** On an empty plot the first date is NaT, the reference year is nan
    and the constructor of the epoch raises. *)
Lemma generate_graph_empty (df : DataFrame) (s e : option string) :
  select_rows to_datetime df s e = Ok [] ->
  generate_graph to_datetime df s e = Raise (ValueError "nan-07-01").
Proof.
  intro Hs. unfold generate_graph. rewrite Hs. reflexivity.
Qed.

Lemma reference_year_of (f : Timestamp) :
  reference_year (Some f)
  = PyInt (if (7 <=? month f)%Z then year f else (year f - 1)%Z).
Proof.
  unfold reference_year. cbn. now destruct (7 <=? month f)%Z.
Qed.
End RenderFacts.

Section BudgetSides.
Local Open Scope R_scope.

(** Before the epoch the budget is above 73.9, after it below. *)
Lemma budget_sides (e d : Timestamp) :
  ((toordinal d < toordinal e)%Z /\ 73.9 < calculate_budget_pr e d)
  \/ (toordinal d = toordinal e /\ calculate_budget_pr e d = 73.9)
  \/ ((toordinal e < toordinal d)%Z /\ calculate_budget_pr e d < 73.9).
Proof.
  rewrite budget_unfold. unfold days_between.
  assert (H1 : Rpower 0.992 0 = 1) by (apply Rpower_O; lra).
  destruct (Z.lt_trichotomy (toordinal d) (toordinal e)) as [H | [H | H]].
  - left. split; [exact H |].
    assert (Hn : IZR (toordinal d - toordinal e) / 365.25 < 0).
    { apply IZR_lt in H. rewrite minus_IZR. lra. }
    apply Rpower_base_decreasing in Hn. lra.
  - right; left. split; [exact H |].
    rewrite H, Z.sub_diag. replace (0 / 365.25) with 0 by lra. lra.
  - right; right. split; [exact H |].
    assert (Hn : 0 < IZR (toordinal d - toordinal e) / 365.25).
    { apply IZR_lt in H. rewrite minus_IZR. lra. }
    apply Rpower_base_decreasing in Hn. lra.
Qed.
End BudgetSides.

(** C5.  On every plot that is not empty [generate_graph] returns, and
    its reference epoch is the first of July of the year of the first
    date when that date is in July or later, of the year before
    otherwise: the latest first of July not after the first date.  The
    budget is defined on every date, before the epoch (above 73.9), at
    the epoch (73.9) and after it (below 73.9). *)
Theorem reference_epoch_rule
  (to_datetime : string -> result Timestamp)
  (df plot : DataFrame) (s e : option string) :
  select_rows to_datetime df s e = Ok plot ->
  plot <> [] ->
  Forall valid_date (map Date plot) ->
  exists st f,
    generate_graph to_datetime df s e = Ok st
    /\ df_plot st = plot
    /\ first_date st = Some f
    /\ In f (map Date plot)
    /\ (forall t, In t (map Date plot) -> ts_le f t)
    /\ budget_start_date st
       = mkTimestamp (if (7 <=? month f)%Z then year f else (year f - 1)%Z) 7 1
    /\ ts_le (budget_start_date st) f
    /\ ts_lt f (mkTimestamp (year (budget_start_date st) + 1) 7 1)
    /\ Budget_PR st
       = map (fun r => calculate_budget_pr (budget_start_date st) (Date r)) plot
    /\ (forall d,
           let b := calculate_budget_pr (budget_start_date st) d in
           (0 < b)%R
           /\ (((toordinal d < toordinal (budget_start_date st))%Z
                /\ (73.9 < b)%R)
               \/ (toordinal d = toordinal (budget_start_date st)
                   /\ b = 73.9%R)
               \/ ((toordinal (budget_start_date st) < toordinal d)%Z
                   /\ (b < 73.9)%R))).
Proof.
  intros Hs Hne Hvalid.
  destruct (@ts_min_spec (map Date plot)) as (f & Hmin & Hin & Hle).
  { destruct plot; [congruence | discriminate]. }
  assert (Hday : (1 <= day f)%Z).
  { rewrite Forall_forall in Hvalid. apply (Hvalid f Hin). }
  pose proof (july_first_latest f Hday) as [Hepoch Hnext].
  eexists. exists f.
  split.
  { apply generate_graph_run with (1 := Hs).
    rewrite Hmin, reference_year_of. reflexivity. }
  cbn. repeat split; try assumption.
  - apply budget_pos.
  - apply budget_sides.
Qed.

Lemma reference_epoch_rule_witness :
  exists st f,
    generate_graph iso_to_datetime
      [ mkRecord (mkTimestamp 2024 3 15) (Some 4.5%Q) (Some 71%Q);
        mkRecord (mkTimestamp 2024 8 1) None (Some 75%Q) ] None None = Ok st
    /\ first_date st = Some f
    /\ budget_start_date st
       = mkTimestamp (if (7 <=? month f)%Z then year f else (year f - 1)%Z) 7 1.
Proof.
  destruct (@reference_epoch_rule iso_to_datetime
              [ mkRecord (mkTimestamp 2024 3 15) (Some 4.5%Q) (Some 71%Q);
                mkRecord (mkTimestamp 2024 8 1) None (Some 75%Q) ]
              _ None None eq_refl)
    as (st & f & Hrun & _ & Hf & _ & _ & Hep & _).
  - discriminate.
  - repeat constructor; cbn; lia.
  - exists st, f. repeat split; assumption.
Defined.

(** C2.  The code does not do what the specification asks for.  On a plot
    without rows (the empty table, or a date range that selects no row)
    the first date is NaT and the reference year is nan, so the
    constructor of the reference epoch (line 145) raises ValueError, and
    the budget column, the count, the percentage and the averages (lines
    147-169) are never computed.  Hence every result of [generate_graph]
    has [total_points > 0]: the branch [else 0] of the guard of line 161,
    which is there for the empty plot, is never taken.  The merge stage
    does not return an empty table either: with no row read it raises
    KeyError on the column [Date] (line 70). *)
Theorem empty_table_raises
  (to_datetime : string -> result Timestamp) :
  generate_graph to_datetime [] None None = Raise (ValueError "nan-07-01")
  /\ (forall df s e,
         select_rows to_datetime df s e = Ok [] ->
         generate_graph to_datetime df s e = Raise (ValueError "nan-07-01"))
  /\ (forall df s e st,
         generate_graph to_datetime df s e = Ok st ->
         df_plot st <> [] /\ (0 < total_points st)%nat)
  /\ reference_year (ts_min (map Date (@nil DateRecord))) = PyNaN
  /\ Timestamp_july_first PyNaN = Raise (ValueError "nan-07-01")
  /\ (forall points_above, percentage points_above 0 = 0%Q)
  /\ (forall (Path : Type) (path_leb : Path -> Path -> bool)
             (read_csv : Path -> result (list Row)),
         preprocess_data path_leb read_csv to_datetime [] []
         = Raise (KeyError "Date")).
Proof.
  split; [reflexivity |].
  split; [intros df s e Hs; unfold generate_graph; now rewrite Hs |].
  split.
  { intros df s e st. unfold generate_graph.
    destruct (select_rows to_datetime df s e) as [[| r plot] | x];
      cbn [bind]; try discriminate.
    destruct (Timestamp_july_first _) as [epoch | x]; cbn [bind];
      [| discriminate].
    intros [= <-]. cbn. split; [discriminate | lia]. }
  repeat split.
Qed.

(** ** Trailing averages *)

Section SeriesFacts.

Lemma tail_last_points {A : Type} (n : nat) (s : list A) :
  tail n s = last_points n s.
Proof.
  unfold tail, last_points. rewrite firstn_rev, rev_involutive.
  destruct n as [| n]; [| reflexivity].
  cbn [Nat.eqb]. rewrite Nat.sub_0_r. symmetry. apply skipn_all.
Qed.

Lemma last_points_skipn {A : Type} (n : nat) (s : list A) :
  last_points n s = skipn (List.length s - n) s.
Proof. unfold last_points. now rewrite firstn_rev, rev_involutive. Qed.

Lemma last_points_length {A : Type} (n : nat) (s : list A) :
  List.length (last_points n s) = Nat.min n (List.length s).
Proof. rewrite last_points_skipn, length_skipn. lia. Qed.

Lemma last_points_suffix {A : Type} (n : nat) (s : list A) :
  s = firstn (List.length s - n) s ++ last_points n s.
Proof. rewrite last_points_skipn. symmetry. apply firstn_skipn. Qed.

Lemma last_points_all {A : Type} (k : nat) (s : list A) :
  last_points (List.length s + k) s = s.
Proof.
  rewrite last_points_skipn.
  replace (List.length s - (List.length s + k))%nat with 0%nat by lia.
  reflexivity.
Qed.

Lemma dropna_present (xs : list Q) : dropna (map Some xs) = xs.
Proof. induction xs as [| x xs IH]; cbn; [reflexivity | now rewrite IH]. Qed.

Lemma mean_present (x : Q) (xs : list Q) :
  mean (map Some (x :: xs)) = Some (Qsum (x :: xs) / Qlen (x :: xs))%Q.
Proof. unfold mean. now rewrite dropna_present. Qed.

(** NaN rows do not count: the mean is that of the values present. *)
Lemma mean_skips_nan (s : Series) : mean s = mean (map Some (dropna s)).
Proof. unfold mean. now rewrite dropna_present. Qed.


(** With [min_periods=1] the guard adds nothing to the NaN of [mean]. *)
Lemma min_periods_one (win : Series) :
  (if Nat.leb 1 (List.length (dropna win)) then mean win else None)
  = mean win.
Proof. unfold mean. now destruct (dropna win). Qed.

Lemma rolling_mean_length (w mp : nat) (s : Series) :
  List.length (rolling_mean w mp s) = List.length s.
Proof. unfold rolling_mean. now rewrite length_map, length_seq. Qed.

Lemma rolling_mean_nth (w : nat) (s : Series) (i : nat) :
  (i < List.length s)%nat ->
  nth_error (rolling_mean w 1 s) i = Some (mean (window_at w i s)).
Proof.
  intro Hi. unfold rolling_mean.
  rewrite nth_error_map, nth_error_seq.
  apply Nat.ltb_lt in Hi. rewrite Hi. cbn [option_map Nat.add].
  now rewrite min_periods_one.
Qed.

Lemma window_at_last_points {A : Type} (w i : nat) (s : list A) :
  (i < List.length s)%nat ->
  window_at w i s = last_points (Nat.min w (S i)) (firstn (S i) s).
Proof.
  intro Hi. unfold window_at. rewrite last_points_skipn, length_firstn.
  f_equal. lia.
Qed.

End SeriesFacts.

(** C6.  On every table that is plotted, that is whenever the rows
    selected from the table (all of them when no date range is given) are
    not none, [generate_graph] reports for the last 7, 30, 60, 90 and 365
    days the means of the last [n] rows of the PR column of the selected
    rows, counted by position: a suffix of that column with [min n len]
    rows, the whole column when it has no more than [n] rows.  The
    lifetime average is the mean of the whole column.  A mean is the sum
    of the values present divided by their number. *)
Theorem trailing_averages
  (to_datetime : string -> result Timestamp)
  (df plot : DataFrame) (s e : option string) :
  select_rows to_datetime df s e = Ok plot ->
  plot <> [] ->
  let pr := map PR plot in
  exists st,
    generate_graph to_datetime df s e = Ok st
    /\ df_plot st = plot
    /\ (s = None -> e = None -> plot = df)
    /\ (last_7_avg st = mean (last_points 7 pr)
        /\ last_30_avg st = mean (last_points 30 pr)
        /\ last_60_avg st = mean (last_points 60 pr)
        /\ last_90_avg st = mean (last_points 90 pr)
        /\ last_365_avg st = mean (last_points 365 pr)
        /\ lifetime_avg st = mean pr)
    /\ (forall n,
           List.length (last_points n pr) = Nat.min n (List.length pr)
           /\ pr = firstn (List.length pr - n) pr ++ last_points n pr)
    /\ (forall k, mean (last_points (List.length pr + k) pr) = mean pr)
    /\ (forall col, mean col = mean (map Some (dropna col)))
    /\ (forall x xs,
           mean (map Some (x :: xs))
           = Some (Qsum (x :: xs) / Qlen (x :: xs))%Q).
Proof.
  intros Hs Hne pr.
  destruct (@ts_min_spec (map Date plot)) as (f & Hmin & _).
  { destruct plot; [congruence | discriminate]. }
  eexists. split.
  { apply generate_graph_run with (1 := Hs).
    rewrite Hmin, reference_year_of. reflexivity. }
  cbn [df_plot last_7_avg last_30_avg last_60_avg last_90_avg last_365_avg
       lifetime_avg].
  fold pr. rewrite !tail_last_points.
  split; [reflexivity |].
  split.
  { intros -> ->. cbn in Hs. now injection Hs as <-. }
  split; [repeat split |].
  split; [intro n; split;
          [apply last_points_length | apply last_points_suffix] |].
  split; [intro k; now rewrite last_points_all |].
  split; [apply mean_skips_nan | intros; apply mean_present].
Qed.

(** Nine days, the fifth without a PR value, plotted from the second day
    on: eight rows are selected, the last seven of them leave out one
    more, and the mean of the six values among these is 397 / 6. *)
Lemma trailing_averages_witness :
  exists st,
    generate_graph iso_to_datetime
      [ mkRecord (mkTimestamp 2024 1 1) (Some 4%Q) (Some 61%Q);
        mkRecord (mkTimestamp 2024 1 2) None (Some 62%Q);
        mkRecord (mkTimestamp 2024 1 3) (Some 4%Q) (Some 63%Q);
        mkRecord (mkTimestamp 2024 1 4) (Some 4%Q) (Some 64%Q);
        mkRecord (mkTimestamp 2024 1 5) (Some 4%Q) None;
        mkRecord (mkTimestamp 2024 1 6) (Some 4%Q) (Some 66%Q);
        mkRecord (mkTimestamp 2024 1 7) (Some 4%Q) (Some 67%Q);
        mkRecord (mkTimestamp 2024 1 8) (Some 4%Q) (Some 68%Q);
        mkRecord (mkTimestamp 2024 1 9) (Some 4%Q) (Some 69%Q) ]
      (Some "2024-01-02"%string) None = Ok st
    /\ List.length (df_plot st) = 8%nat
    /\ last_7_avg st
       = mean [Some 63%Q; Some 64%Q; None; Some 66%Q; Some 67%Q; Some 68%Q;
               Some 69%Q]
    /\ last_7_avg st = Some (397 # 6)%Q
    /\ last_30_avg st = lifetime_avg st
    /\ lifetime_avg st = Some (459 # 7)%Q.
Proof.
  destruct (@trailing_averages iso_to_datetime
              [ mkRecord (mkTimestamp 2024 1 1) (Some 4%Q) (Some 61%Q);
                mkRecord (mkTimestamp 2024 1 2) None (Some 62%Q);
                mkRecord (mkTimestamp 2024 1 3) (Some 4%Q) (Some 63%Q);
                mkRecord (mkTimestamp 2024 1 4) (Some 4%Q) (Some 64%Q);
                mkRecord (mkTimestamp 2024 1 5) (Some 4%Q) None;
                mkRecord (mkTimestamp 2024 1 6) (Some 4%Q) (Some 66%Q);
                mkRecord (mkTimestamp 2024 1 7) (Some 4%Q) (Some 67%Q);
                mkRecord (mkTimestamp 2024 1 8) (Some 4%Q) (Some 68%Q);
                mkRecord (mkTimestamp 2024 1 9) (Some 4%Q) (Some 69%Q) ]
              [ mkRecord (mkTimestamp 2024 1 2) None (Some 62%Q);
                mkRecord (mkTimestamp 2024 1 3) (Some 4%Q) (Some 63%Q);
                mkRecord (mkTimestamp 2024 1 4) (Some 4%Q) (Some 64%Q);
                mkRecord (mkTimestamp 2024 1 5) (Some 4%Q) None;
                mkRecord (mkTimestamp 2024 1 6) (Some 4%Q) (Some 66%Q);
                mkRecord (mkTimestamp 2024 1 7) (Some 4%Q) (Some 67%Q);
                mkRecord (mkTimestamp 2024 1 8) (Some 4%Q) (Some 68%Q);
                mkRecord (mkTimestamp 2024 1 9) (Some 4%Q) (Some 69%Q) ]
              (Some "2024-01-02"%string) None eq_refl)
    as (st & Hrun & Hplot & _ & (H7 & H30 & _ & _ & _ & Hall) & _).
  - discriminate.
  - exists st. split; [exact Hrun |].
    split; [now rewrite Hplot |].
    split; [exact H7 |]. split; [exact H7 |].
    split; [now rewrite H30, Hall | exact Hall].
Defined.



Example moving_average_values :
  rolling_mean 30 1 [Some 70%Q; None; Some 74%Q]
  = [Some 70%Q; Some 70%Q; Some (144 # 2)%Q].
Proof. reflexivity. Qed.

(** ** The dict of the merge stage *)

Section DictFacts.

Lemma dict_get_modify (k k' : string) (f : DateEntry -> DateEntry)
  (d : data_dict) :
  dict_get k (dict_modify k' f d)
  = if String.eqb k' k then option_map f (dict_get k d) else dict_get k d.
Proof.
  induction d as [| [k0 e] d IH]; cbn [dict_modify dict_get].
  - now destruct (String.eqb k' k).
  - destruct (String.eqb_spec k0 k') as [-> | Hk0]; cbn [dict_get].
    + destruct (String.eqb_spec k' k) as [-> | Hk]; [reflexivity |].
      reflexivity.
    + destruct (String.eqb_spec k0 k) as [-> | Hk].
      * destruct (String.eqb_spec k' k); [congruence | reflexivity].
      * exact IH.
Qed.

Lemma dict_get_app (k : string) (d d' : data_dict) :
  dict_get k (d ++ d')
  = match dict_get k d with Some e => Some e | None => dict_get k d' end.
Proof.
  induction d as [| [k0 e] d IH]; cbn [app dict_get]; [reflexivity |].
  now destruct (String.eqb k0 k).
Qed.

Lemma dict_get_setdefault (k k' : string) (d : data_dict) :
  dict_get k (dict_setdefault k' d)
  = match dict_get k d with
    | Some e => Some e
    | None => if String.eqb k' k then Some (mkEntry k' None None) else None
    end.
Proof.
  unfold dict_setdefault, dict_mem.
  destruct (dict_get k' d) as [e' |] eqn:E'.
  - destruct (dict_get k d) as [e |] eqn:E; [reflexivity |].
    destruct (String.eqb_spec k' k); [congruence | reflexivity].
  - rewrite dict_get_app. cbn [dict_get]. reflexivity.
Qed.

Lemma dict_get_put_field (setf : option Q -> DateEntry -> DateEntry)
  (k : string) (d : data_dict) (row : Row) :
  dict_get k (put_field setf d row)
  = if String.eqb (fst row) k
    then Some (setf (snd row) (entry_or_new k d))
    else dict_get k d.
Proof.
  unfold put_field, entry_or_new.
  rewrite dict_get_modify, dict_get_setdefault.
  destruct (String.eqb_spec (fst row) k) as [<- | Hk].
  - now destruct (dict_get (fst row) d).
  - now destruct (dict_get k d).
Qed.

Lemma last_value_none (k : string) (rows : list Row) :
  last_value k rows = None <-> ~ In k (map fst rows).
Proof.
  induction rows as [| [k0 v] rows IH]; cbn [last_value map fst In].
  - tauto.
  - destruct (last_value k rows) as [x |].
    + split; [discriminate |]. intro H. exfalso.
      assert (Hn : ~ In k (map fst rows)) by tauto.
      apply IH in Hn. discriminate.
    + destruct (String.eqb_spec k0 k) as [-> | Hk].
      * split; [discriminate | tauto].
      * split; [| reflexivity]. intros _ [H | H]; [congruence |].
        now apply IH in H.
Qed.

Lemma last_value_app (k : string) (rows rows' : list Row) :
  last_value k (rows ++ rows')
  = match last_value k rows' with
    | Some x => Some x
    | None => last_value k rows
    end.
Proof.
  induction rows as [| [k0 v] rows IH]; cbn [app last_value].
  - now destruct (last_value k rows').
  - rewrite IH. now destruct (last_value k rows').
Qed.

Variable setf : option Q -> DateEntry -> DateEntry.
Hypothesis setf_twice : forall x v e, setf x (setf v e) = setf x e.
Hypothesis setf_date : forall v e, entry_Date (setf v e) = entry_Date e.

(** The entry of a date after a run of writes: the last value written,
    on top of the entry that was there before. *)
Lemma dict_get_fold_put (k : string) (rows : list Row) (d : data_dict) :
  dict_get k (fold_left (put_field setf) rows d)
  = match last_value k rows with
    | Some v => Some (setf v (entry_or_new k d))
    | None => dict_get k d
    end.
Proof.
  revert d. induction rows as [| [k0 v] rows IH]; intro d;
    cbn [fold_left last_value]; [reflexivity |].
  rewrite IH. destruct (last_value k rows) as [x |].
  - f_equal. unfold entry_or_new at 1.
    rewrite dict_get_put_field. cbn [fst snd].
    destruct (String.eqb k0 k); [apply setf_twice | reflexivity].
  - rewrite dict_get_put_field. cbn [fst snd].
    now destruct (String.eqb k0 k).
Qed.

Lemma dict_get_none (k : string) (d : data_dict) :
  dict_get k d = None <-> ~ In k (map fst d).
Proof.
  induction d as [| [k0 e] d IH]; cbn [dict_get map fst In]; [tauto |].
  destruct (String.eqb_spec k0 k) as [-> | Hk].
  - split; [discriminate | tauto].
  - rewrite IH. tauto.
Qed.

Lemma dict_modify_keys (k : string) (f : DateEntry -> DateEntry)
  (d : data_dict) : map fst (dict_modify k f d) = map fst d.
Proof.
  induction d as [| [k0 e] d IH]; cbn [dict_modify]; [reflexivity |].
  destruct (String.eqb k0 k); cbn [map fst]; [reflexivity | now rewrite IH].
Qed.

Lemma dict_modify_dates (k : string) (f : DateEntry -> DateEntry)
  (d : data_dict) :
  (forall e, entry_Date (f e) = entry_Date e) ->
  Forall (fun p => entry_Date (snd p) = fst p) d ->
  Forall (fun p => entry_Date (snd p) = fst p) (dict_modify k f d).
Proof.
  intros Hf H. induction H as [| [k0 e] d He Hd IH]; cbn [dict_modify].
  - constructor.
  - destruct (String.eqb k0 k); constructor; cbn [fst snd] in *;
      try assumption. now rewrite Hf.
Qed.

Lemma put_field_wf (d : data_dict) (row : Row) :
  dict_wf d -> dict_wf (put_field setf d row).
Proof.
  intros [Hnd Hdates]. unfold put_field, dict_wf.
  rewrite dict_modify_keys.
  assert (H : NoDup (map fst (dict_setdefault (fst row) d))
              /\ Forall (fun p => entry_Date (snd p) = fst p)
                   (dict_setdefault (fst row) d)).
  { unfold dict_setdefault, dict_mem.
    destruct (dict_get (fst row) d) eqn:E; [now split |].
    apply dict_get_none in E. split.
    - rewrite map_app. cbn [map fst].
      apply NoDup_rev in Hnd. rewrite <- (rev_involutive (map fst d ++ _)).
      apply NoDup_rev. rewrite rev_app_distr. cbn [rev app].
      constructor; [now rewrite <- in_rev | exact Hnd].
    - apply Forall_app. split; [exact Hdates |].
      constructor; [reflexivity | constructor]. }
  destruct H as [H1 H2]. split; [exact H1 |].
  apply dict_modify_dates; [apply setf_date | exact H2].
Qed.

Lemma fold_put_wf (rows : list Row) (d : data_dict) :
  dict_wf d -> dict_wf (fold_left (put_field setf) rows d).
Proof.
  revert d. induction rows as [| row rows IH]; intros d Hd;
    cbn [fold_left]; [exact Hd |].
  apply IH. now apply put_field_wf.
Qed.
End DictFacts.

(** ** Sorting *)

Section SortFacts.
Context {A : Type} (leb : A -> A -> bool).

Let le (a b : A) : Prop := leb a b = true.

Lemma insert_sorted_perm (x : A) (l : list A) :
  Permutation (x :: l) (insert_sorted leb x l).
Proof.
  induction l as [| y l IH]; cbn [insert_sorted]; [reflexivity |].
  destruct (leb x y); [reflexivity |].
  rewrite perm_swap. now apply perm_skip.
Qed.

Lemma sorted_perm (l : list A) : Permutation l (sorted leb l).
Proof.
  induction l as [| x l IH]; cbn [sorted fold_right]; [reflexivity |].
  rewrite <- insert_sorted_perm. now apply perm_skip.
Qed.

Hypothesis leb_total : forall a b, leb a b = true \/ leb b a = true.
Hypothesis leb_trans :
  forall a b c, leb a b = true -> leb b c = true -> leb a c = true.

Lemma insert_sorted_strongly (x : A) (l : list A) :
  StronglySorted le l -> StronglySorted le (insert_sorted leb x l).
Proof.
  induction 1 as [| y l Hs IH Hy]; cbn [insert_sorted].
  - repeat constructor.
  - destruct (leb x y) eqn:E.
    + constructor; [now constructor |].
      constructor; [exact E |].
      eapply Forall_impl; [| exact Hy]. intros z Hz.
      now apply leb_trans with y.
    + constructor; [exact IH |].
      assert (Hyx : le y x) by (destruct (leb_total x y); congruence).
      rewrite Forall_forall in *. intros z Hz.
      apply (Permutation_in _ (Permutation_sym (insert_sorted_perm x l))) in Hz.
      destruct Hz as [<- | Hz]; [exact Hyx | now apply Hy].
Qed.

Lemma sorted_strongly (l : list A) : StronglySorted le (sorted leb l).
Proof.
  induction l as [| x l IH]; cbn [sorted fold_right]; [constructor |].
  now apply insert_sorted_strongly.
Qed.

Hypothesis leb_antisym :
  forall a b, leb a b = true -> leb b a = true -> a = b.

(** An ascending list is determined by its elements. *)
Lemma strongly_sorted_unique (l1 l2 : list A) :
  StronglySorted le l1 -> StronglySorted le l2 -> Permutation l1 l2 ->
  l1 = l2.
Proof.
  intro H1. revert l2.
  induction H1 as [| a l1 Hs1 IH Ha]; intros l2 H2 Hp.
  - apply Permutation_nil in Hp. now subst.
  - destruct H2 as [| b l2 Hs2 Hb].
    + apply Permutation_sym, Permutation_nil in Hp. discriminate.
    + assert (Hab : a = b).
      { assert (Hina : In a (b :: l2))
          by (apply (Permutation_in _ Hp); now left).
        assert (Hinb : In b (a :: l1))
          by (apply (Permutation_in _ (Permutation_sym Hp)); now left).
        rewrite Forall_forall in Ha, Hb.
        destruct Hina as [-> | Hina]; [reflexivity |].
        destruct Hinb as [-> | Hinb]; [reflexivity |].
        apply leb_antisym; [now apply Ha | now apply Hb]. }
      subst b. f_equal. apply IH; [exact Hs2 |].
      now apply Permutation_cons_inv with a.
Qed.

Lemma sorted_permutation (l1 l2 : list A) :
  Permutation l1 l2 -> sorted leb l1 = sorted leb l2.
Proof.
  intro Hp. apply strongly_sorted_unique; try apply sorted_strongly.
  rewrite <- !sorted_perm. exact Hp.
Qed.
End SortFacts.

(** ** The merged table *)

Section MergeFacts.
Variable Path : Type.
Variable path_leb : Path -> Path -> bool.
Variable read_csv : Path -> result (list Row).
Variable to_datetime : string -> result Timestamp.

Lemma process_pr_files (files : list Path) (d : data_dict) :
  fold_left (process_pr_file read_csv) files d
  = fold_left (put_field with_PR) (file_rows read_csv files) d.
Proof.
  revert d. induction files as [| f files IH]; intro d; [reflexivity |].
  cbn [fold_left file_rows flat_map]. rewrite fold_left_app, IH.
  unfold process_pr_file. now destruct (read_csv f).
Qed.

Lemma process_ghi_files (files : list Path) (d : data_dict) :
  fold_left (process_ghi_file read_csv) files d
  = fold_left (put_field with_GHI) (file_rows read_csv files) d.
Proof.
  revert d. induction files as [| f files IH]; intro d; [reflexivity |].
  cbn [fold_left file_rows flat_map]. rewrite fold_left_app, IH.
  unfold process_ghi_file. now destruct (read_csv f).
Qed.

Lemma fold_files_rows (pr_glob ghi_glob : list Path) :
  fold_files path_leb read_csv pr_glob ghi_glob
  = fold_left (put_field with_GHI)
      (file_rows read_csv (sorted path_leb ghi_glob))
      (fold_left (put_field with_PR)
         (file_rows read_csv (sorted path_leb pr_glob)) []).
Proof.
  unfold fold_files. now rewrite process_pr_files, process_ghi_files.
Qed.

(** The record kept for a date after both passes. *)
Lemma merged_entry (pr_rows ghi_rows : list Row) (k : string) :
  dict_get k (fold_left (put_field with_GHI) ghi_rows
                (fold_left (put_field with_PR) pr_rows []))
  = match last_value k (pr_rows ++ ghi_rows) with
    | Some _ => Some (mkEntry k (written k pr_rows) (written k ghi_rows))
    | None => None
    end.
Proof.
  rewrite (dict_get_fold_put with_GHI) by reflexivity.
  unfold entry_or_new.
  rewrite (dict_get_fold_put with_PR) by reflexivity.
  rewrite last_value_app. unfold written, entry_or_new. cbn [dict_get].
  destruct (last_value k ghi_rows), (last_value k pr_rows); reflexivity.
Qed.

Lemma merged_wf (pr_rows ghi_rows : list Row) :
  dict_wf (fold_left (put_field with_GHI) ghi_rows
             (fold_left (put_field with_PR) pr_rows [])).
Proof.
  apply fold_put_wf; [reflexivity |].
  apply fold_put_wf; [reflexivity |].
  split; constructor.
Qed.

Lemma dict_get_in (k : string) (e : DateEntry) (d : data_dict) :
  dict_get k d = Some e -> In (k, e) d.
Proof.
  induction d as [| [k0 e0] d IH]; cbn [dict_get]; [discriminate |].
  destruct (String.eqb_spec k0 k) as [-> | Hk].
  - intros [= ->]. now left.
  - intro H. right. now apply IH.
Qed.

Lemma merged_keys (pr_rows ghi_rows : list Row) (k : string) :
  In k (map fst (fold_left (put_field with_GHI) ghi_rows
                   (fold_left (put_field with_PR) pr_rows [])))
  <-> In k (map fst (pr_rows ++ ghi_rows)).
Proof.
  pose proof (merged_entry pr_rows ghi_rows k) as He.
  pose proof (dict_get_none k
                (fold_left (put_field with_GHI) ghi_rows
                   (fold_left (put_field with_PR) pr_rows []))) as Hd.
  pose proof (last_value_none k (pr_rows ++ ghi_rows)) as Hl.
  destruct (last_value k (pr_rows ++ ghi_rows)) as [x |].
  - rewrite He in Hd. split; intros _.
    + destruct (in_dec string_dec k (map fst (pr_rows ++ ghi_rows)))
        as [Hin | Hn]; [exact Hin |].
      apply Hl in Hn. discriminate.
    + destruct (in_dec string_dec k
                  (map fst (fold_left (put_field with_GHI) ghi_rows
                              (fold_left (put_field with_PR) pr_rows []))))
        as [Hin | Hn]; [exact Hin |].
      apply Hd in Hn. discriminate.
  - rewrite He in Hd. split; intro H; exfalso.
    + now apply Hd in H.
    + now apply Hl in H.
Qed.

Lemma mapM_Forall2 {A B : Type} (f : A -> result B) (l : list A) :
  (forall a, In a l -> exists b, f a = Ok b) ->
  exists bs, mapM f l = Ok bs /\ Forall2 (fun a b => f a = Ok b) l bs.
Proof.
  induction l as [| a l IH]; intro H.
  - exists []. split; [reflexivity | constructor].
  - destruct (H a (or_introl eq_refl)) as [b Hb].
    destruct IH as (bs & Hbs & HF); [intros; apply H; now right |].
    exists (b :: bs). cbn [mapM]. rewrite Hb. cbn [bind]. rewrite Hbs.
    split; [reflexivity | now constructor].
Qed.

Lemma Forall2_in_left {A B : Type} (R : A -> B -> Prop) l bs a :
  Forall2 R l bs -> In a l -> exists b, In b bs /\ R a b.
Proof.
  induction 1 as [| a0 b0 l bs H0 HF IH]; [intros [] |].
  intros [<- | Hin].
  - exists b0. split; [now left | exact H0].
  - destruct (IH Hin) as (b & Hb & HR). exists b. split; [now right | exact HR].
Qed.

Lemma Forall2_in_right {A B : Type} (R : A -> B -> Prop) l bs b :
  Forall2 R l bs -> In b bs -> exists a, In a l /\ R a b.
Proof.
  induction 1 as [| a0 b0 l bs H0 HF IH]; [intros [] |].
  intros [<- | Hin].
  - exists a0. split; [now left | exact H0].
  - destruct (IH Hin) as (a & Ha & HR). exists a. split; [now right | exact HR].
Qed.

Lemma to_record_ok (e : DateEntry) (r : DateRecord) :
  to_record to_datetime e = Ok r <->
  to_datetime (entry_Date e) = Ok (Date r)
  /\ GHI r = entry_GHI e /\ PR r = entry_PR e.
Proof.
  unfold to_record. destruct (to_datetime (entry_Date e)) as [t | x];
    cbn [bind].
  - split.
    + intros [= <-]. now cbn.
    + intros ([= ->] & H1 & H2). destruct r; cbn in *. now subst.
  - split; [discriminate | intros [H _]; discriminate].
Qed.

(** When every key is a date, the dict that is not empty becomes a
    table, with one row for each entry. *)
Lemma to_frame_ok (d : data_dict) :
  d <> [] ->
  dict_wf d ->
  all_parse to_datetime (map fst d) ->
  exists bs,
    to_frame to_datetime d = Ok (sort_values bs)
    /\ Forall2 (fun e r => to_record to_datetime e = Ok r) (map snd d) bs.
Proof.
  intros Hne [_ Hdates] Hparse.
  destruct (@mapM_Forall2 _ _ (to_record to_datetime) (map snd d))
    as (bs & Hbs & HF).
  { intros e He. apply in_map_iff in He. destruct He as ([k e'] & <- & Hin).
    rewrite Forall_forall in Hdates. pose proof (Hdates _ Hin) as Hk.
    cbn [fst snd] in *.
    destruct (Hparse k) as [t Ht].
    { apply in_map_iff. now exists (k, e'). }
    exists (mkRecord t (entry_GHI e') (entry_PR e')).
    unfold to_record. rewrite Hk, Ht. reflexivity. }
  exists bs. split; [| exact HF].
  unfold to_frame. destruct d as [| p d]; [congruence |].
  cbn [map] in *. rewrite Hbs. reflexivity.
Qed.

Lemma frame_dates_nodup (es : list DateEntry) (bs : DataFrame) :
  Forall2 (fun e r => to_record to_datetime e = Ok r) es bs ->
  NoDup (map entry_Date es) ->
  distinct_dates to_datetime (map entry_Date es) ->
  NoDup (map Date bs).
Proof.
  induction 1 as [| e r es bs Her HF IH]; intros Hnd Hinj;
    cbn [map] in *; [constructor |].
  apply NoDup_cons_iff in Hnd. destruct Hnd as [Hnotin Hnd].
  constructor.
  - intro Hin. apply in_map_iff in Hin. destruct Hin as (r' & Hdate & Hr').
    destruct (Forall2_in_right _ HF Hr') as (e' & He' & Hrec).
    apply to_record_ok in Her, Hrec.
    destruct Her as [Her _], Hrec as [Hrec _]. rewrite Hdate in Hrec.
    apply Hnotin.
    rewrite (Hinj (entry_Date e) (entry_Date e') (Date r));
      [now apply in_map | now left | right; now apply in_map | | ];
      assumption.
  - apply IH; [exact Hnd |].
    intros k1 k2 t H1 H2. apply Hinj; now right.
Qed.

Lemma sort_values_perm (df : DataFrame) : Permutation df (sort_values df).
Proof. apply sorted_perm. Qed.

Lemma sort_values_ascending (df : DataFrame) :
  StronglySorted (fun a b => ts_le (Date a) (Date b)) (sort_values df).
Proof.
  apply (@sorted_strongly _ (fun a b => ts_leb (Date a) (Date b))).
  - intros a b. apply ts_le_total.
  - intros a b c. apply ts_le_trans.
Qed.

Lemma dates_strictly_ascending (df : DataFrame) :
  StronglySorted (fun a b => ts_le (Date a) (Date b)) df ->
  NoDup (map Date df) ->
  StronglySorted ts_lt (map Date df).
Proof.
  induction 1 as [| a l Hs IH Ha]; intro Hnd; cbn [map]; [constructor |].
  cbn [map] in Hnd. apply NoDup_cons_iff in Hnd. destruct Hnd as [Hnotin Hnd].
  constructor; [now apply IH |].
  rewrite Forall_forall in *. intros t Ht.
  apply in_map_iff in Ht. destruct Ht as (b & <- & Hb).
  destruct (ts_le_lt_or_eq (Ha b Hb)) as [Hlt | Heq]; [exact Hlt |].
  exfalso. apply Hnotin. rewrite Heq. now apply in_map.
Qed.
End MergeFacts.

Section MergeTheorems.
Variable Path : Type.
Variable path_leb : Path -> Path -> bool.
Variable read_csv : Path -> result (list Row).
Variable to_datetime : string -> result Timestamp.

Lemma entry_dates_keys (d : data_dict) :
  dict_wf d -> map entry_Date (map snd d) = map fst d.
Proof.
  intros [_ H]. induction H as [| [k e] d Hk Hd IH]; cbn [map fst snd] in *;
    [reflexivity |].
  now rewrite Hk, IH.
Qed.

(** The table of a run in which some row was read and every [Date] cell
    is a date: the entries of the dict, converted and sorted. *)
Lemma preprocess_data_table (pr_glob ghi_glob : list Path) :
  let d := fold_files path_leb read_csv pr_glob ghi_glob in
  let pr_rows := file_rows read_csv (sorted path_leb pr_glob) in
  let ghi_rows := file_rows read_csv (sorted path_leb ghi_glob) in
  all_parse to_datetime (map fst (pr_rows ++ ghi_rows)) ->
  pr_rows ++ ghi_rows <> [] ->
  dict_wf d
  /\ (forall k, In k (map fst d) <-> In k (map fst (pr_rows ++ ghi_rows)))
  /\ exists bs,
      preprocess_data path_leb read_csv to_datetime pr_glob ghi_glob
      = Ok (sort_values bs)
      /\ Forall2 (fun e r => to_record to_datetime e = Ok r) (map snd d) bs.
Proof.
  intros d pr_rows ghi_rows Hparse Hne.
  assert (Hd : d = fold_left (put_field with_GHI) ghi_rows
                     (fold_left (put_field with_PR) pr_rows []))
    by apply fold_files_rows.
  assert (Hwf : dict_wf d) by (rewrite Hd; apply merged_wf).
  assert (Hkeys : forall k,
             In k (map fst d) <-> In k (map fst (pr_rows ++ ghi_rows)))
    by (intro k; rewrite Hd; apply merged_keys).
  split; [exact Hwf | split; [exact Hkeys |]].
  apply to_frame_ok; [| exact Hwf |].
  - intro Hnil. destruct (pr_rows ++ ghi_rows) as [| [k v] rows] eqn:E;
      [congruence |].
    assert (Hin : In k (map fst d)) by (apply Hkeys; now left).
    rewrite Hnil in Hin. exact Hin.
  - intros k Hk. apply Hparse. now apply Hkeys.
Qed.

Lemma written_last (k : string) (v : option Q) (front back : list Row) :
  written k
    (front ++ (k, v) :: filter (fun r => negb (String.eqb (fst r) k)) back)
  = v.
Proof.
  unfold written. rewrite last_value_app. cbn [last_value].
  assert (H : last_value k
                (filter (fun r => negb (String.eqb (fst r) k)) back) = None).
  { apply last_value_none. intro Hin. apply in_map_iff in Hin.
    destruct Hin as (r & Hr & Hin). apply filter_In in Hin.
    destruct Hin as [_ Hneq]. rewrite Hr, String.eqb_refl in Hneq.
    discriminate. }
  rewrite H, String.eqb_refl. reflexivity.
Qed.

Lemma written_absent (k : string) (rows : list Row) :
  written k (filter (fun r => negb (String.eqb (fst r) k)) rows) = None.
Proof.
  unfold written.
  assert (H : last_value k
                (filter (fun r => negb (String.eqb (fst r) k)) rows) = None).
  { apply last_value_none. intro Hin. apply in_map_iff in Hin.
    destruct Hin as (r & Hr & Hin). apply filter_In in Hin.
    destruct Hin as [_ Hneq]. rewrite Hr, String.eqb_refl in Hneq.
    discriminate. }
  now rewrite H.
Qed.
End MergeTheorems.

(** C10.  A GHI file leaves the PR field of the record of every date as
    it was, and a PR file the GHI field: the field is unchanged on a
    record that was there, and absent on a record that the pass creates.
    The same holds for a single row. *)
Theorem passes_keep_other_field
  (Path : Type) (read_csv : Path -> result (list Row))
  (d : data_dict) (file : Path) (row : Row) (k : string) :
  field_kept entry_PR (dict_get k d)
    (dict_get k (process_ghi_file read_csv d file))
  /\ field_kept entry_GHI (dict_get k d)
       (dict_get k (process_pr_file read_csv d file))
  /\ field_kept entry_PR (dict_get k d) (dict_get k (put_GHI d row))
  /\ field_kept entry_GHI (dict_get k d) (dict_get k (put_PR d row)).
Proof.
  assert (Hsame : forall proj, field_kept proj (dict_get k d) (dict_get k d)).
  { intro proj. unfold field_kept. now destruct (dict_get k d). }
  repeat split.
  - unfold process_ghi_file. destruct (read_csv file) as [rows | x];
      [| apply Hsame].
    change put_GHI with (put_field with_GHI).
    rewrite (dict_get_fold_put with_GHI) by reflexivity.
    unfold entry_or_new, field_kept.
    destruct (last_value k rows), (dict_get k d); cbn; auto.
  - unfold process_pr_file. destruct (read_csv file) as [rows | x];
      [| apply Hsame].
    change put_PR with (put_field with_PR).
    rewrite (dict_get_fold_put with_PR) by reflexivity.
    unfold entry_or_new, field_kept.
    destruct (last_value k rows), (dict_get k d); cbn; auto.
  - change (put_GHI d row) with (put_field with_GHI d row).
    rewrite dict_get_put_field. unfold entry_or_new, field_kept.
    destruct (String.eqb (fst row) k), (dict_get k d); cbn; auto.
  - change (put_PR d row) with (put_field with_PR d row).
    rewrite dict_get_put_field. unfold entry_or_new, field_kept.
    destruct (String.eqb (fst row) k), (dict_get k d); cbn; auto.
Qed.

(** C3 (amended).  When every [Date] cell is a date and different cells
    denote different days, every date of a readable source file has
    exactly one record in the merged table; its PR is the value of the
    last PR row written for that date, its GHI the value of the last GHI
    row, each absent when no row of that kind names the date; and every
    record of the table is that of a date of a source file. *)
Theorem merged_record_per_date
  (Path : Type) (path_leb : Path -> Path -> bool)
  (read_csv : Path -> result (list Row))
  (to_datetime : string -> result Timestamp)
  (pr_glob ghi_glob : list Path) (k : string) :
  let pr_rows := file_rows read_csv (sorted path_leb pr_glob) in
  let ghi_rows := file_rows read_csv (sorted path_leb ghi_glob) in
  let keys := map fst (pr_rows ++ ghi_rows) in
  all_parse to_datetime keys ->
  distinct_dates to_datetime keys ->
  In k keys ->
  exists df t,
    preprocess_data path_leb read_csv to_datetime pr_glob ghi_glob = Ok df
    /\ to_datetime k = Ok t
    /\ In (mkRecord t (written k ghi_rows) (written k pr_rows)) df
    /\ NoDup (map Date df)
    /\ (forall r, In r df ->
                  exists k', In k' keys /\ to_datetime k' = Ok (Date r))
    /\ (forall rows v front back,
           written k (front ++ (k, v)
                        :: filter (fun r => negb (String.eqb (fst r) k)) back)
           = v
           /\ written k (filter (fun r => negb (String.eqb (fst r) k)) rows)
              = None).
Proof.
  intros pr_rows ghi_rows keys Hparse Hinj Hk.
  destruct (@preprocess_data_table Path path_leb read_csv to_datetime
              pr_glob ghi_glob Hparse)
    as (Hwf & Hkeys & bs & Hrun & HF).
  { intro Hnil. unfold keys in Hk. fold pr_rows ghi_rows in Hnil.
    rewrite Hnil in Hk. exact Hk. }
  destruct (Hparse k Hk) as [t Ht].
  exists (sort_values bs), t.
  split; [exact Hrun | split; [exact Ht |]].
  set (d := fold_files path_leb read_csv pr_glob ghi_glob) in *.
  split; [| split; [| split]].
  - assert (He : dict_get k d
                 = Some (mkEntry k (written k pr_rows) (written k ghi_rows))).
    { unfold d. rewrite fold_files_rows, merged_entry.
      fold pr_rows ghi_rows.
      destruct (last_value k (pr_rows ++ ghi_rows)) eqn:E; [reflexivity |].
      apply last_value_none in E. contradiction. }
    apply dict_get_in in He.
    apply (in_map snd) in He. cbn [snd] in He.
    destruct (Forall2_in_left _ HF He) as (r & Hr & Hrec).
    apply to_record_ok in Hrec. cbn [entry_Date entry_GHI entry_PR] in Hrec.
    destruct Hrec as (Hdate & Hghi & Hpr).
    apply (Permutation_in _ (sort_values_perm bs)).
    replace (mkRecord t (written k ghi_rows) (written k pr_rows)) with r;
      [exact Hr |].
    destruct r as [rd rg rp]. cbn [Date GHI PR] in *.
    rewrite Ht in Hdate. injection Hdate as <-. now subst.
  - apply (Permutation_NoDup (Permutation_map Date (sort_values_perm bs))).
    apply (frame_dates_nodup HF); rewrite entry_dates_keys by exact Hwf.
    + apply Hwf.
    + intros k1 k2 t' H1 H2. apply Hinj; now apply Hkeys.
  - intros r Hr.
    apply (Permutation_in _ (Permutation_sym (sort_values_perm bs))) in Hr.
    destruct (Forall2_in_right _ HF Hr) as (e & He & Hrec).
    apply to_record_ok in Hrec. destruct Hrec as [Hdate _].
    exists (entry_Date e). split; [| exact Hdate].
    apply Hkeys. rewrite <- (entry_dates_keys Hwf). now apply in_map.
  - intros rows v front back. split;
      [apply written_last | apply written_absent].
Qed.

Lemma merged_record_per_date_witness :
  exists df,
    preprocess_data String.leb sample_files iso_to_datetime
      ["PR/2024-01/b.csv"; "PR/2024-01/a.csv"]%string
      ["GHI/2024-01/a.csv"]%string = Ok df
    /\ In (mkRecord (mkTimestamp 2024 1 2) None (Some 72%Q)) df.
Proof.
  destruct (@merged_record_per_date string String.leb sample_files
              iso_to_datetime
              ["PR/2024-01/b.csv"; "PR/2024-01/a.csv"]%string
              ["GHI/2024-01/a.csv"]%string "2024-01-02"%string)
    as (df & t & Hrun & Ht & Hin & _).
  - intros k Hk. cbn in Hk.
    destruct Hk as [<- | [<- | [<- | [<- | []]]]]; eexists; reflexivity.
  - intros k1 k2 t Hk1 Hk2. cbn in Hk1, Hk2.
    destruct Hk1 as [<- | [<- | [<- | [<- | []]]]];
      destruct Hk2 as [<- | [<- | [<- | [<- | []]]]];
      cbn; intros H1 H2; try reflexivity; congruence.
  - cbn. tauto.
  - exists df. split; [exact Hrun |].
    cbn in Ht. injection Ht as <-. exact Hin.
Defined.

(** The scenario of the specification: two PR files for the first two
    days of 2024, the later file overwriting the second day, and one GHI
    file for the first day only. *)
Example merge_scenario :
  preprocess_data String.leb sample_files iso_to_datetime
    ["PR/2024-01/b.csv"; "PR/2024-01/a.csv"; "PR/notes.csv"]%string
    ["GHI/2024-01/a.csv"]%string
  = Ok [ mkRecord (mkTimestamp 2024 1 1) (Some 5%Q) (Some 70%Q);
         mkRecord (mkTimestamp 2024 1 2) None (Some 72%Q) ].
Proof. reflexivity. Qed.

(** C3 as stated fails: a PR file that writes 2024-01-01 and a GHI file
    that writes 2024-1-1 give two records for the first of January 2024,
    one without GHI and one without PR, and none with both values. *)
Lemma merged_record_counterexample :
  let day := mkTimestamp 2024 1 1 in
  iso_to_datetime "2024-01-01" = Ok day
  /\ iso_to_datetime "2024-1-1" = Ok day
  /\ preprocess_data String.leb unpadded_files iso_to_datetime
       ["PR/a.csv"]%string ["GHI/a.csv"]%string
     = Ok [ mkRecord day None (Some 70%Q); mkRecord day (Some 5%Q) None ]
  /\ ~ In (mkRecord day (Some 5%Q) (Some 70%Q))
         [ mkRecord day None (Some 70%Q); mkRecord day (Some 5%Q) None ].
Proof.
  repeat split. intros [H | [H | []]]; discriminate H.
Qed.

(** Whatever the input, a table that the merge stage returns is in
    ascending order of date. *)
Lemma merged_table_ascending
  (Path : Type) (path_leb : Path -> Path -> bool)
  (read_csv : Path -> result (list Row))
  (to_datetime : string -> result Timestamp)
  (pr_glob ghi_glob : list Path) (df : DataFrame) :
  preprocess_data path_leb read_csv to_datetime pr_glob ghi_glob = Ok df ->
  StronglySorted (fun a b => ts_le (Date a) (Date b)) df.
Proof.
  unfold preprocess_data, to_frame.
  destruct (map snd _) as [| e es]; [discriminate |].
  destruct (mapM _ _) as [bs | x]; cbn [bind]; [| discriminate].
  intros [= <-]. apply sort_values_ascending.
Qed.

(** C4 (amended).  When some row was read, every [Date] cell is a date
    and different cells denote different days, the merge stage returns a
    table whose dates are strictly ascending, hence without duplicates. *)
Theorem merged_dates_strictly_ascending
  (Path : Type) (path_leb : Path -> Path -> bool)
  (read_csv : Path -> result (list Row))
  (to_datetime : string -> result Timestamp)
  (pr_glob ghi_glob : list Path) :
  let pr_rows := file_rows read_csv (sorted path_leb pr_glob) in
  let ghi_rows := file_rows read_csv (sorted path_leb ghi_glob) in
  let keys := map fst (pr_rows ++ ghi_rows) in
  pr_rows ++ ghi_rows <> [] ->
  all_parse to_datetime keys ->
  distinct_dates to_datetime keys ->
  exists df,
    preprocess_data path_leb read_csv to_datetime pr_glob ghi_glob = Ok df
    /\ StronglySorted ts_lt (map Date df)
    /\ NoDup (map Date df).
Proof.
  intros pr_rows ghi_rows keys Hne Hparse Hinj.
  destruct (@preprocess_data_table Path path_leb read_csv to_datetime
              pr_glob ghi_glob Hparse Hne)
    as (Hwf & Hkeys & bs & Hrun & HF).
  assert (Hnd : NoDup (map Date (sort_values bs))).
  { apply (Permutation_NoDup (Permutation_map Date (sort_values_perm bs))).
    apply (frame_dates_nodup HF); rewrite entry_dates_keys by exact Hwf.
    - apply Hwf.
    - intros k1 k2 t H1 H2. apply Hinj; now apply Hkeys. }
  exists (sort_values bs). split; [exact Hrun | split; [| exact Hnd]].
  apply dates_strictly_ascending; [apply sort_values_ascending | exact Hnd].
Qed.

Lemma merged_dates_strictly_ascending_witness :
  exists df,
    preprocess_data String.leb sample_files iso_to_datetime
      ["PR/2024-01/b.csv"; "PR/2024-01/a.csv"]%string
      ["GHI/2024-01/a.csv"]%string = Ok df
    /\ StronglySorted ts_lt (map Date df).
Proof.
  destruct (@merged_dates_strictly_ascending string String.leb sample_files
              iso_to_datetime
              ["PR/2024-01/b.csv"; "PR/2024-01/a.csv"]%string
              ["GHI/2024-01/a.csv"]%string)
    as (df & Hrun & Hsorted & _).
  - discriminate.
  - intros k Hk. cbn in Hk.
    destruct Hk as [<- | [<- | [<- | [<- | []]]]]; eexists; reflexivity.
  - intros k1 k2 t Hk1 Hk2. cbn in Hk1, Hk2.
    destruct Hk1 as [<- | [<- | [<- | [<- | []]]]];
      destruct Hk2 as [<- | [<- | [<- | [<- | []]]]];
      cbn; intros H1 H2; try reflexivity; congruence.
  - exists df. split; assumption.
Defined.

(** C4 as stated fails: with the cells 2024-01-01 in a PR file and
    2024-1-1 in a GHI file the table has the same date twice. *)
Lemma merged_dates_counterexample :
  exists df,
    preprocess_data String.leb unpadded_files iso_to_datetime
      ["PR/a.csv"]%string ["GHI/a.csv"]%string = Ok df
    /\ map Date df = [mkTimestamp 2024 1 1; mkTimestamp 2024 1 1]
    /\ ~ StronglySorted ts_lt (map Date df)
    /\ ~ NoDup (map Date df).
Proof.
  eexists. split; [reflexivity |]. cbn [map Date].
  split; [reflexivity | split].
  - intro H. apply StronglySorted_inv in H. destruct H as [_ H].
    apply Forall_inv in H. discriminate H.
  - intro H. apply NoDup_cons_iff in H. destruct H as [H _].
    apply H. now left.
Qed.

(** ** Order of enumeration *)

Lemma string_leb_trans (s1 s2 s3 : string) :
  String.leb s1 s2 = true -> String.leb s2 s3 = true ->
  String.leb s1 s3 = true.
Proof.
  unfold String.leb. revert s2 s3.
  induction s1 as [| c1 s1 IH]; intros [| c2 s2] [| c3 s3];
    cbn [String.compare]; try congruence.
  unfold Ascii.compare.
  destruct (N.compare_spec (N_of_ascii c1) (N_of_ascii c2)) as [E12 | L12 | G12];
    destruct (N.compare_spec (N_of_ascii c2) (N_of_ascii c3)) as [E23 | L23 | G23];
    destruct (N.compare_spec (N_of_ascii c1) (N_of_ascii c3)) as [E13 | L13 | G13];
    try congruence; try lia.
  apply IH.
Qed.

(** C9.  The merged table does not depend on the order in which the
    files are enumerated: both lists of paths are sorted before the fold,
    so two enumerations of the same paths give the same result. *)
Theorem enumeration_order_irrelevant
  (Path : Type) (path_leb : Path -> Path -> bool)
  (read_csv : Path -> result (list Row))
  (to_datetime : string -> result Timestamp)
  (pr_glob pr_glob' ghi_glob ghi_glob' : list Path) :
  (forall a b, path_leb a b = true \/ path_leb b a = true) ->
  (forall a b c,
      path_leb a b = true -> path_leb b c = true -> path_leb a c = true) ->
  (forall a b, path_leb a b = true -> path_leb b a = true -> a = b) ->
  Permutation pr_glob pr_glob' ->
  Permutation ghi_glob ghi_glob' ->
  sorted path_leb pr_glob = sorted path_leb pr_glob'
  /\ sorted path_leb ghi_glob = sorted path_leb ghi_glob'
  /\ preprocess_data path_leb read_csv to_datetime pr_glob ghi_glob
     = preprocess_data path_leb read_csv to_datetime pr_glob' ghi_glob'.
Proof.
  intros Htotal Htrans Hanti Hpr Hghi.
  pose proof (sorted_permutation path_leb Htotal Htrans Hanti Hpr) as H1.
  pose proof (sorted_permutation path_leb Htotal Htrans Hanti Hghi) as H2.
  split; [exact H1 | split; [exact H2 |]].
  unfold preprocess_data, fold_files. now rewrite H1, H2.
Qed.

Lemma enumeration_order_irrelevant_witness :
  preprocess_data String.leb sample_files iso_to_datetime
    ["PR/2024-01/b.csv"; "PR/2024-01/a.csv"]%string
    ["GHI/2024-01/a.csv"]%string
  = preprocess_data String.leb sample_files iso_to_datetime
      ["PR/2024-01/a.csv"; "PR/2024-01/b.csv"]%string
      ["GHI/2024-01/a.csv"]%string.
Proof.
  apply (@enumeration_order_irrelevant string String.leb sample_files
           iso_to_datetime).
  - apply String.leb_total.
  - apply string_leb_trans.
  - apply String.leb_antisym.
  - apply perm_swap.
  - apply Permutation_refl.
Defined.

(** * Further properties of the merge stage *)

Section MergeOutcome.
Variable Path : Type.
Variable path_leb : Path -> Path -> bool.
Variable read_csv : Path -> result (list Row).
Variable to_datetime : string -> result Timestamp.

Lemma mapM_inv {A B : Type} (f : A -> result B) (l : list A) (bs : list B) :
  mapM f l = Ok bs -> Forall2 (fun a b => f a = Ok b) l bs.
Proof.
  revert bs. induction l as [| a l IH]; intros bs; cbn [mapM].
  - intros [= <-]. constructor.
  - destruct (f a) as [b | x] eqn:Ea; cbn [bind]; [| discriminate].
    destruct (mapM f l) as [bs' | x]; cbn [bind]; [| discriminate].
    intros [= <-]. constructor; [exact Ea | now apply IH].
Qed.


Lemma in_dict_get (k : string) (e : DateEntry) (d : data_dict) :
  NoDup (map fst d) -> In (k, e) d -> dict_get k d = Some e.
Proof.
  induction d as [| [k0 e0] d IH]; cbn [map fst dict_get]; [intros _ [] |].
  intros Hnd Hin. apply NoDup_cons_iff in Hnd. destruct Hnd as [Hnotin Hnd].
  destruct Hin as [[= -> ->] | Hin].
  - now rewrite String.eqb_refl.
  - destruct (String.eqb_spec k0 k) as [-> | Hk]; [| now apply IH].
    exfalso. apply Hnotin. now apply (in_map fst) in Hin.
Qed.

(** What [preprocess_data] returned comes from the dict, entry by
    entry. *)
Lemma preprocess_data_inv (pr_glob ghi_glob : list Path) (df : DataFrame) :
  preprocess_data path_leb read_csv to_datetime pr_glob ghi_glob = Ok df ->
  let d := fold_files path_leb read_csv pr_glob ghi_glob in
  d <> []
  /\ exists bs,
      df = sort_values bs
      /\ Forall2 (fun e r => to_record to_datetime e = Ok r) (map snd d) bs.
Proof.
  intros H d. unfold preprocess_data, to_frame in H. fold d in H.
  destruct d as [| p d']; [discriminate |]. split; [discriminate |].
  cbn [map] in *.
  destruct (mapM (to_record to_datetime) (snd p :: map snd d'))
    as [bs | x] eqn:E; cbn [bind] in H; [| discriminate].
  injection H as <-. exists bs. split; [reflexivity |].
  now apply mapM_inv.
Qed.

Lemma fold_files_wf (pr_glob ghi_glob : list Path) :
  dict_wf (fold_files path_leb read_csv pr_glob ghi_glob).
Proof. rewrite fold_files_rows. apply merged_wf. Qed.

Lemma fold_files_keys (pr_glob ghi_glob : list Path) (k : string) :
  In k (map fst (fold_files path_leb read_csv pr_glob ghi_glob))
  <-> In k (map fst (file_rows read_csv (sorted path_leb pr_glob)
                     ++ file_rows read_csv (sorted path_leb ghi_glob))).
Proof. rewrite fold_files_rows. apply merged_keys. Qed.

Lemma fold_files_entry (pr_glob ghi_glob : list Path) (k : string)
  (e : DateEntry) :
  In (k, e) (fold_files path_leb read_csv pr_glob ghi_glob) ->
  e = mkEntry k
        (written k (file_rows read_csv (sorted path_leb pr_glob)))
        (written k (file_rows read_csv (sorted path_leb ghi_glob))).
Proof.
  intro Hin. pose proof (fold_files_wf pr_glob ghi_glob) as [Hnd _].
  apply in_dict_get in Hin; [| exact Hnd].
  rewrite fold_files_rows, merged_entry in Hin.
  destruct (last_value k _); [now injection Hin as <- | discriminate].
Qed.


End MergeOutcome.



Section CountFacts.

Lemma column_sum_cons (b : bool) (flags : list bool) :
  column_sum (b :: flags) = ((if b then 1 else 0) + column_sum flags)%nat.
Proof. unfold column_sum. cbn [filter]. now destruct b. Qed.

Lemma column_sum_perm {A : Type} (f : A -> bool) (l l' : list A) :
  Permutation l l' -> column_sum (map f l) = column_sum (map f l').
Proof.
  induction 1 as [| x l l' Hp IH | x y l | l l' l'' H1 IH1 H2 IH2];
    cbn [map]; rewrite ?column_sum_cons; lia.
Qed.

Lemma column_sum_Forall2 {A B : Type} (R : A -> B -> Prop)
  (f : A -> bool) (g : B -> bool) (l : list A) (l' : list B) :
  (forall a b, R a b -> f a = g b) ->
  Forall2 R l l' ->
  column_sum (map f l) = column_sum (map g l').
Proof.
  intro Hfg. induction 1 as [| a b l l' Hab HF IH]; cbn [map];
    [reflexivity |].
  rewrite !column_sum_cons, IH, (Hfg a b Hab). reflexivity.
Qed.

Lemma column_sum_filter {A : Type} (f : A -> bool) (l : list A) :
  column_sum (map f l) = List.length (filter f l).
Proof.
  induction l as [| a l IH]; [reflexivity |].
  cbn [map filter]. rewrite column_sum_cons, IH. now destruct (f a).
Qed.

Lemma column_sum_split {A : Type} (f : A -> bool) (l : list A) :
  (column_sum (map f l) + column_sum (map (fun a => negb (f a)) l))%nat
  = List.length l.
Proof.
  induction l as [| a l IH]; [reflexivity |].
  cbn [map List.length]. rewrite !column_sum_cons.
  destruct (f a); cbn [negb]; lia.
Qed.

Lemma column_sum_le {A : Type} (f g : A -> bool) (l : list A) :
  (forall a, f a = true -> g a = true) ->
  (column_sum (map f l) <= column_sum (map g l))%nat.
Proof.
  intro Hfg. induction l as [| a l IH]; [reflexivity |].
  cbn [map]. rewrite !column_sum_cons.
  destruct (f a) eqn:E; [rewrite (Hfg a E) |]; destruct (g a); lia.
Qed.

Lemma column_sum_union {A : Type} (f g : A -> bool) (l : list A) :
  (column_sum (map f l) + column_sum (map g l)
   = column_sum (map (fun a => f a && g a) l)
     + column_sum (map (fun a => f a || g a) l))%nat.
Proof.
  induction l as [| a l IH]; [reflexivity |].
  cbn [map]. rewrite !column_sum_cons.
  destruct (f a), (g a); cbn [andb orb]; lia.
Qed.

Lemma NoDup_keys_filter (f : string * DateEntry -> bool) (d : data_dict) :
  NoDup (map fst d) -> NoDup (map fst (filter f d)).
Proof.
  induction d as [| p d IH]; cbn [map filter]; [constructor |].
  intro Hnd. apply NoDup_cons_iff in Hnd. destruct Hnd as [Hnotin Hnd].
  destruct (f p); [| now apply IH].
  cbn [map]. constructor; [| now apply IH].
  intro Hin. apply Hnotin. apply in_map_iff in Hin.
  destruct Hin as (q & Hq & Hin). apply filter_In in Hin.
  rewrite <- Hq. apply in_map. apply Hin.
Qed.

Lemma written_present (k : string) (rows : list Row) :
  notna (written k rows) = true -> In k (map fst rows).
Proof.
  unfold written. intro H.
  destruct (in_dec string_dec k (map fst rows)) as [Hin | Hn]; [exact Hin |].
  apply last_value_none in Hn. rewrite Hn in H. discriminate.
Qed.
End CountFacts.

(** X2.  The statistics that [preprocess_data] prints are consistent
    on every table: the dates with PR and the missing PR values add up to
    the total of rows, and so for GHI; the dates with both are counted in
    each; and the dates with PR or GHI, with PR plus with GHI minus with
    both, are at most the total. *)
Theorem data_statistics_consistent (df : DataFrame) :
  let s := data_statistics df in
  (dates_with_PR s + missing_PR s = total_rows s)%nat
  /\ (dates_with_GHI s + missing_GHI s = total_rows s)%nat
  /\ (dates_with_both s <= dates_with_PR s)%nat
  /\ (dates_with_both s <= dates_with_GHI s)%nat
  /\ (dates_with_PR s + dates_with_GHI s
      <= total_rows s + dates_with_both s)%nat
  /\ (missing_PR s + missing_GHI s + dates_with_both s
      = total_rows s
        + column_sum (map (fun r => isna (PR r) && isna (GHI r)) df))%nat.
Proof.
  cbn [data_statistics dates_with_PR dates_with_GHI dates_with_both
         missing_PR missing_GHI total_rows].
  pose proof (column_sum_split (fun r => notna (PR r)) df) as Hpr.
  pose proof (column_sum_split (fun r => notna (GHI r)) df) as Hghi.
  pose proof (column_sum_union (fun r => notna (PR r))
                (fun r => notna (GHI r)) df) as Hunion.
  pose proof (column_sum_split
                (fun r => notna (PR r) || notna (GHI r)) df) as Hany.
  assert (Hnone : column_sum
                    (map (fun r => negb (notna (PR r) || notna (GHI r))) df)
                  = column_sum
                      (map (fun r => negb (notna (PR r))
                                     && negb (notna (GHI r))) df)).
  { f_equal. apply map_ext. intro r.
    now destruct (notna (PR r)), (notna (GHI r)). }
  unfold isna. rewrite <- Hnone.
  repeat split; try lia.
  - apply column_sum_le. intros r H. now apply andb_true_iff in H.
  - apply column_sum_le. intros r H. now apply andb_true_iff in H.
Qed.

Section TableSize.
Variable Path : Type.
Variable path_leb : Path -> Path -> bool.
Variable read_csv : Path -> result (list Row).
Variable to_datetime : string -> result Timestamp.

Lemma table_length (pr_glob ghi_glob : list Path) (df : DataFrame) :
  preprocess_data path_leb read_csv to_datetime pr_glob ghi_glob = Ok df ->
  List.length df
  = List.length (fold_files path_leb read_csv pr_glob ghi_glob).
Proof.
  intro Hrun.
  destruct (@preprocess_data_inv Path path_leb read_csv to_datetime
              pr_glob ghi_glob df Hrun) as (_ & bs & -> & HF).
  rewrite <- (Permutation_length (sort_values_perm bs)).
  apply Forall2_length in HF. now rewrite <- HF, length_map.
Qed.

(** A count over a column of the table is the count over the entries of
    the dict. *)
Lemma table_count (pr_glob ghi_glob : list Path) (df : DataFrame)
  (f : DateEntry -> bool) (g : DateRecord -> bool) :
  (forall e r, to_record to_datetime e = Ok r -> f e = g r) ->
  preprocess_data path_leb read_csv to_datetime pr_glob ghi_glob = Ok df ->
  column_sum (map g df)
  = List.length (filter (fun p => f (snd p))
                   (fold_files path_leb read_csv pr_glob ghi_glob)).
Proof.
  intros Hfg Hrun.
  destruct (@preprocess_data_inv Path path_leb read_csv to_datetime
              pr_glob ghi_glob df Hrun) as (_ & bs & -> & HF).
  rewrite <- (column_sum_perm g (sort_values_perm bs)).
  rewrite <- (column_sum_Forall2 f g Hfg HF).
  rewrite map_map. apply column_sum_filter.
Qed.

Lemma keys_length (pr_glob ghi_glob : list Path) :
  List.length (fold_files path_leb read_csv pr_glob ghi_glob)
  = List.length
      (nodup string_dec
         (map fst (file_rows read_csv (sorted path_leb pr_glob)
                   ++ file_rows read_csv (sorted path_leb ghi_glob)))).
Proof.
  rewrite <- (length_map fst). apply Permutation_length.
  apply NoDup_Permutation.
  - apply fold_files_wf.
  - apply NoDup_nodup.
  - intro k. rewrite nodup_In. apply fold_files_keys.
Qed.

(** The entries that hold a value in one field are filed under dates
    that the rows of that kind name. *)
Lemma present_entries_length (pr_glob ghi_glob : list Path)
  (proj : DateEntry -> option Q) (rows : list Row) :
  (forall k e,
      In (k, e) (fold_files path_leb read_csv pr_glob ghi_glob) ->
      proj e = written k rows) ->
  (List.length (filter (fun p => notna (proj (snd p)))
                  (fold_files path_leb read_csv pr_glob ghi_glob))
   <= List.length (nodup string_dec (map fst rows)))%nat.
Proof.
  intro Hproj. rewrite <- (length_map fst).
  apply NoDup_incl_length.
  - apply NoDup_keys_filter. apply fold_files_wf.
  - intros k Hk. apply in_map_iff in Hk.
    destruct Hk as ([k' e] & Hk' & Hin). cbn [fst] in Hk'. subst k'.
    apply filter_In in Hin. destruct Hin as [Hin Hpresent].
    cbn [snd] in Hpresent. rewrite (Hproj k e Hin) in Hpresent.
    apply nodup_In. now apply written_present.
Qed.
End TableSize.

(** X3.  The table that [preprocess_data] returns has one row for each
    different [Date] text of the files that could be read: the total of
    rows that it prints is the number of different texts. *)
Theorem table_rows_are_distinct_texts
  (Path : Type) (path_leb : Path -> Path -> bool)
  (read_csv : Path -> result (list Row))
  (to_datetime : string -> result Timestamp)
  (pr_glob ghi_glob : list Path) (df : DataFrame) :
  preprocess_data path_leb read_csv to_datetime pr_glob ghi_glob = Ok df ->
  let pr_rows := file_rows read_csv (sorted path_leb pr_glob) in
  let ghi_rows := file_rows read_csv (sorted path_leb ghi_glob) in
  List.length df
  = List.length (nodup string_dec (map fst (pr_rows ++ ghi_rows)))
  /\ total_rows (data_statistics df) = List.length df
  /\ (1 <= List.length df)%nat.
Proof.
  intros Hrun pr_rows ghi_rows.
  pose proof (table_length _ _ _ _ _ Hrun) as Hlen.
  split; [| split; [reflexivity |]].
  - rewrite Hlen. apply keys_length.
  - rewrite Hlen.
    destruct (@preprocess_data_inv Path path_leb read_csv to_datetime
                pr_glob ghi_glob df Hrun) as (Hne & _).
    destruct (fold_files path_leb read_csv pr_glob ghi_glob);
      [congruence | cbn; lia].
Qed.

Lemma table_rows_are_distinct_texts_witness :
  exists df,
    preprocess_data String.leb sample_files iso_to_datetime
      ["PR/2024-01/b.csv"; "PR/2024-01/a.csv"]%string
      ["GHI/2024-01/a.csv"]%string = Ok df
    /\ List.length df = 2%nat.
Proof.
  eexists. split; [reflexivity |].
  apply (@table_rows_are_distinct_texts string String.leb sample_files
           iso_to_datetime
           ["PR/2024-01/b.csv"; "PR/2024-01/a.csv"]%string
           ["GHI/2024-01/a.csv"]%string).
  reflexivity.
Defined.

(** X4.  In the statistics of the merged table the dates with PR data
    are at most the different dates of the PR rows, the dates with GHI
    data at most those of the GHI rows, and the rows at most both
    together; a side without rows has no date with data. *)
Theorem coverage_bounded_by_sources
  (Path : Type) (path_leb : Path -> Path -> bool)
  (read_csv : Path -> result (list Row))
  (to_datetime : string -> result Timestamp)
  (pr_glob ghi_glob : list Path) (df : DataFrame) :
  preprocess_data path_leb read_csv to_datetime pr_glob ghi_glob = Ok df ->
  let pr_dates :=
    nodup string_dec
      (map fst (file_rows read_csv (sorted path_leb pr_glob))) in
  let ghi_dates :=
    nodup string_dec
      (map fst (file_rows read_csv (sorted path_leb ghi_glob))) in
  let s := data_statistics df in
  (dates_with_PR s <= List.length pr_dates)%nat
  /\ (dates_with_GHI s <= List.length ghi_dates)%nat
  /\ (dates_with_both s
      <= Nat.min (List.length pr_dates) (List.length ghi_dates))%nat
  /\ (total_rows s <= List.length pr_dates + List.length ghi_dates)%nat.
Proof.
  intros Hrun pr_dates ghi_dates s.
  assert (Hpr : (dates_with_PR s <= List.length pr_dates)%nat).
  { unfold s. cbn [data_statistics dates_with_PR].
    rewrite (@table_count Path path_leb read_csv to_datetime pr_glob ghi_glob
               df (fun e => notna (entry_PR e)) (fun r => notna (PR r)));
      [| | exact Hrun].
    - apply present_entries_length. intros k e Hin.
      now rewrite (fold_files_entry _ _ _ _ _ _ Hin).
    - intros e r Hrec. apply to_record_ok in Hrec.
      destruct Hrec as (_ & _ & ->). reflexivity. }
  assert (Hghi : (dates_with_GHI s <= List.length ghi_dates)%nat).
  { unfold s. cbn [data_statistics dates_with_GHI].
    rewrite (@table_count Path path_leb read_csv to_datetime pr_glob ghi_glob
               df (fun e => notna (entry_GHI e)) (fun r => notna (GHI r)));
      [| | exact Hrun].
    - apply present_entries_length. intros k e Hin.
      now rewrite (fold_files_entry _ _ _ _ _ _ Hin).
    - intros e r Hrec. apply to_record_ok in Hrec.
      destruct Hrec as (_ & -> & _). reflexivity. }
  assert (Hboth : (dates_with_both s <= dates_with_PR s)%nat
                  /\ (dates_with_both s <= dates_with_GHI s)%nat).
  { unfold s. cbn [data_statistics dates_with_both dates_with_PR
                     dates_with_GHI].
    split; apply column_sum_le; intros r H; now apply andb_true_iff in H. }
  split; [exact Hpr | split; [exact Hghi | split]].
  - lia.
  - unfold s. cbn [data_statistics total_rows].
    rewrite (table_length _ _ _ _ _ Hrun), <- (length_map fst).
    unfold pr_dates, ghi_dates. rewrite <- length_app.
    apply NoDup_incl_length; [apply fold_files_wf |].
    intros k Hk. apply fold_files_keys in Hk.
    rewrite map_app in Hk. apply in_app_or in Hk. apply in_or_app.
    destruct Hk as [Hk | Hk]; [left | right]; now apply nodup_In.
Qed.

Lemma coverage_bounded_by_sources_witness :
  exists df,
    preprocess_data String.leb sample_files iso_to_datetime
      ["PR/2024-01/b.csv"; "PR/2024-01/a.csv"]%string
      ["GHI/2024-01/a.csv"]%string = Ok df
    /\ (dates_with_GHI (data_statistics df) <= 1)%nat.
Proof.
  eexists. split; [reflexivity |].
  apply (@coverage_bounded_by_sources string String.leb sample_files
           iso_to_datetime
           ["PR/2024-01/b.csv"; "PR/2024-01/a.csv"]%string
           ["GHI/2024-01/a.csv"]%string).
  reflexivity.
Defined.

Section SkipUnreadable.
Context {A : Type} (leb : A -> A -> bool).
Hypothesis leb_trans :
  forall a b c, leb a b = true -> leb b c = true -> leb a c = true.

Lemma insert_sorted_first (x : A) (l : list A) :
  Forall (fun z => leb x z = true) l -> insert_sorted leb x l = x :: l.
Proof.
  intro H. destruct H as [| z l Hz _]; cbn [insert_sorted]; [reflexivity |].
  now rewrite Hz.
Qed.

Lemma filter_insert_sorted (f : A -> bool) (x : A) (l : list A) :
  StronglySorted (fun a b => leb a b = true) l ->
  filter f (insert_sorted leb x l)
  = if f x then insert_sorted leb x (filter f l) else filter f l.
Proof.
  induction 1 as [| y l Hs IH Hy]; cbn [insert_sorted filter].
  - now destruct (f x).
  - destruct (leb x y) eqn:E; cbn [filter].
    + destruct (f x); [| reflexivity].
      symmetry. apply insert_sorted_first.
      assert (Hall : Forall (fun z => leb x z = true) (y :: l)).
      { constructor; [exact E |].
        eapply Forall_impl; [| exact Hy]. intros z Hz.
        now apply leb_trans with y. }
      rewrite Forall_forall in *. intros z Hz.
      apply Hall. change (In z (filter f (y :: l))) in Hz.
      apply filter_In in Hz. apply Hz.
    + rewrite IH. destruct (f y), (f x); cbn [insert_sorted];
        rewrite ?E; reflexivity.
Qed.

Hypothesis leb_total : forall a b, leb a b = true \/ leb b a = true.

(** Sorting and leaving out commute. *)
Lemma filter_sorted (f : A -> bool) (l : list A) :
  filter f (sorted leb l) = sorted leb (filter f l).
Proof.
  induction l as [| x l IH]; [reflexivity |].
  cbn [sorted fold_right filter].
  rewrite filter_insert_sorted by (apply sorted_strongly; assumption).
  fold (sorted leb l). rewrite IH.
  now destruct (f x).
Qed.
End SkipUnreadable.

Lemma file_rows_readable {Path : Type} (read_csv : Path -> result (list Row))
  (files : list Path) :
  file_rows read_csv (filter (readable read_csv) files)
  = file_rows read_csv files.
Proof.
  induction files as [| f files IH]; [reflexivity |].
  cbn [filter file_rows flat_map]. unfold readable at 1.
  destruct (read_csv f) as [rows | x] eqn:E.
  - cbn [file_rows flat_map]. rewrite E. f_equal. exact IH.
  - exact IH.
Qed.

(** X5.  A file that cannot be read is skipped and nothing else: the
    result of [preprocess_data] is the one it gives when the paths of the
    unreadable files are not enumerated at all. *)
Theorem unreadable_files_are_skipped
  (Path : Type) (path_leb : Path -> Path -> bool)
  (read_csv : Path -> result (list Row))
  (to_datetime : string -> result Timestamp)
  (pr_glob ghi_glob : list Path) :
  (forall a b, path_leb a b = true \/ path_leb b a = true) ->
  (forall a b c,
      path_leb a b = true -> path_leb b c = true -> path_leb a c = true) ->
  preprocess_data path_leb read_csv to_datetime pr_glob ghi_glob
  = preprocess_data path_leb read_csv to_datetime
      (filter (readable read_csv) pr_glob)
      (filter (readable read_csv) ghi_glob).
Proof.
  intros Htotal Htrans. unfold preprocess_data. f_equal.
  rewrite !fold_files_rows.
  rewrite <- !(filter_sorted path_leb Htrans Htotal).
  now rewrite !file_rows_readable.
Qed.

Lemma unreadable_files_are_skipped_witness :
  preprocess_data String.leb sample_files iso_to_datetime
    ["PR/notes.csv"; "PR/2024-01/b.csv"; "PR/2024-01/a.csv"]%string
    ["GHI/2024-01/a.csv"; "GHI/broken.csv"]%string
  = preprocess_data String.leb sample_files iso_to_datetime
      ["PR/2024-01/b.csv"; "PR/2024-01/a.csv"]%string
      ["GHI/2024-01/a.csv"]%string.
Proof.
  apply (@unreadable_files_are_skipped string String.leb sample_files
           iso_to_datetime
           ["PR/notes.csv"; "PR/2024-01/b.csv"; "PR/2024-01/a.csv"]%string
           ["GHI/2024-01/a.csv"; "GHI/broken.csv"]%string).
  - apply String.leb_total.
  - apply string_leb_trans.
Defined.

(** X6.  The two passes do not depend on their order: whether a PR
    file is folded before a GHI file or after it, every date ends up
    with the same record. *)
Theorem passes_commute
  (Path : Type) (read_csv : Path -> result (list Row))
  (d : data_dict) (pr_file ghi_file : Path) (k : string) :
  dict_get k (process_ghi_file read_csv
                (process_pr_file read_csv d pr_file) ghi_file)
  = dict_get k (process_pr_file read_csv
                  (process_ghi_file read_csv d ghi_file) pr_file).
Proof.
  unfold process_ghi_file, process_pr_file.
  change put_GHI with (put_field with_GHI).
  change put_PR with (put_field with_PR).
  destruct (read_csv pr_file) as [pr_df | x];
    destruct (read_csv ghi_file) as [ghi_df | y]; try reflexivity.
  repeat (unfold entry_or_new;
          first [ rewrite (dict_get_fold_put with_GHI) by reflexivity
                | rewrite (dict_get_fold_put with_PR) by reflexivity ]).
  unfold entry_or_new.
  destruct (last_value k ghi_df), (last_value k pr_df), (dict_get k d);
    reflexivity.
Qed.

(** * Further properties of the chart statistics *)

Section RenderShape.
Variable to_datetime : string -> result Timestamp.

(** Every result of [generate_graph], field by field. *)
Lemma generate_graph_shape (df : DataFrame) (s e : option string)
  (st : GraphStats) :
  generate_graph to_datetime df s e = Ok st ->
  exists plot epoch,
    select_rows to_datetime df s e = Ok plot
    /\ Timestamp_july_first (reference_year (ts_min (map Date plot)))
       = Ok epoch
    /\ st = (let pr := map PR plot in
             let budgets :=
               map (fun r => calculate_budget_pr epoch (Date r)) plot in
             mkStats plot (rolling_mean 30 1 pr)
               (map (fun r => get_ghi_color (GHI r)) plot)
               (ts_min (map Date plot)) (ts_max (map Date plot))
               epoch budgets (count_above pr budgets) (List.length plot)
               (percentage (count_above pr budgets) (List.length plot))
               (mean (tail 7 pr)) (mean (tail 30 pr)) (mean (tail 60 pr))
               (mean (tail 90 pr)) (mean (tail 365 pr)) (mean pr)).
Proof.
  unfold generate_graph.
  destruct (select_rows to_datetime df s e) as [plot | x]; [| discriminate].
  cbn [bind].
  destruct (Timestamp_july_first _) as [epoch | x] eqn:E; [| discriminate].
  cbn [bind]. intros [= <-]. exists plot, epoch. repeat split. exact E.
Qed.

(** A result means that some row was plotted. *)
Lemma generate_graph_plot_rows (df : DataFrame) (s e : option string)
  (st : GraphStats) :
  generate_graph to_datetime df s e = Ok st -> df_plot st <> [].
Proof.
  intro H.
  destruct (@generate_graph_shape df s e st H) as (plot & epoch & _ & He & ->).
  cbn [df_plot]. intros ->. discriminate He.
Qed.

Lemma filter_bound_ok (bound : string) (t : Timestamp)
  (keep : Timestamp -> Timestamp -> bool) (df : DataFrame) :
  bound <> ""%string ->
  to_datetime bound = Ok t ->
  filter_bound to_datetime (Some bound) keep df
  = Ok (filter (fun r => keep t (Date r)) df).
Proof.
  intros Hne Ht. unfold filter_bound.
  destruct (String.eqb_spec bound ""); [contradiction |].
  now rewrite Ht.
Qed.

Lemma filter_twice {A : Type} (f g : A -> bool) (l : list A) :
  filter g (filter f l) = filter (fun a => f a && g a) l.
Proof.
  induction l as [| a l IH]; [reflexivity |].
  cbn [filter]. destruct (f a); cbn [filter andb]; now rewrite IH.
Qed.
End RenderShape.

Lemma ts_max_spec (l : list Timestamp) :
  l <> [] ->
  exists m, ts_max l = Some m /\ In m l /\ forall t, In t l -> ts_le t m.
Proof.
  induction l as [| t l IH]; [congruence | intros _].
  destruct l as [| t' l'].
  - exists t. cbn. split; [reflexivity | split; [now left |]].
    intros t0 [<- | []]. apply ts_le_refl.
  - destruct IH as (m & Hm & Hin & Hle); [discriminate |].
    change (ts_max (t :: t' :: l'))
      with (match ts_max (t' :: l') with
            | None => Some t
            | Some m => Some (if ts_ltb t m then m else t)
            end).
    rewrite Hm. destruct (ts_ltb t m) eqn:E.
    + exists m. split; [reflexivity | split; [now right |]].
      intros t0 [<- | H0]; [now apply ts_lt_le | now apply Hle].
    + exists t. split; [reflexivity | split; [now left |]].
      intros t0 [<- | H0]; [apply ts_le_refl |].
      apply ts_le_trans with m; [now apply Hle | now apply ts_ltb_false_le].
Qed.

(** X7.  With a start and an end date, the rows that are plotted are
    the rows of the table dated from the start to the end, both
    included, in the order of the table; an empty text as a bound is no
    bound. *)
Theorem date_range_is_inclusive
  (to_datetime : string -> result Timestamp)
  (df : DataFrame) (start_date end_date : string) (ts te : Timestamp) :
  start_date <> ""%string ->
  end_date <> ""%string ->
  to_datetime start_date = Ok ts ->
  to_datetime end_date = Ok te ->
  exists plot,
    select_rows to_datetime df (Some start_date) (Some end_date) = Ok plot
    /\ plot = filter (fun r => ts_leb ts (Date r) && ts_leb (Date r) te) df
    /\ (forall r, In r plot <->
                  In r df /\ ts_le ts (Date r) /\ ts_le (Date r) te)
    /\ (List.length plot <= List.length df)%nat
    /\ select_rows to_datetime df (Some ""%string) (Some ""%string) = Ok df
    /\ select_rows to_datetime df None None = Ok df.
Proof.
  intros Hs He Hts Hte.
  exists (filter (fun r => ts_leb ts (Date r) && ts_leb (Date r) te) df).
  split; [| split; [reflexivity | split; [| split; [| split]]]].
  - unfold select_rows. rewrite (@filter_bound_ok to_datetime start_date ts _ _ Hs Hts). cbn [bind].
    rewrite (@filter_bound_ok to_datetime end_date te _ _ He Hte). now rewrite filter_twice.
  - intro r. rewrite filter_In, andb_true_iff. reflexivity.
  - induction df as [| r df IH]; [reflexivity |].
    cbn [filter]. destruct (_ && _); cbn [List.length]; lia.
  - reflexivity.
  - reflexivity.
Qed.

Lemma date_range_is_inclusive_witness :
  select_rows iso_to_datetime
    [ mkRecord (mkTimestamp 2024 1 1) None (Some 70%Q);
      mkRecord (mkTimestamp 2024 1 2) None (Some 71%Q);
      mkRecord (mkTimestamp 2024 1 3) None (Some 72%Q) ]
    (Some "2024-01-02"%string) (Some "2024-01-03"%string)
  = Ok [ mkRecord (mkTimestamp 2024 1 2) None (Some 71%Q);
         mkRecord (mkTimestamp 2024 1 3) None (Some 72%Q) ].
Proof.
  destruct (@date_range_is_inclusive iso_to_datetime
              [ mkRecord (mkTimestamp 2024 1 1) None (Some 70%Q);
                mkRecord (mkTimestamp 2024 1 2) None (Some 71%Q);
                mkRecord (mkTimestamp 2024 1 3) None (Some 72%Q) ]
              "2024-01-02"%string "2024-01-03"%string
              (mkTimestamp 2024 1 2) (mkTimestamp 2024 1 3))
    as (plot & Hrun & -> & _).
  - discriminate.
  - discriminate.
  - reflexivity.
  - reflexivity.
  - exact Hrun.
Defined.

(** X8.  When no row of the table lies in the date range, as when the
    start is after the end, [generate_graph] raises the ValueError of the
    reference epoch instead of drawing an empty chart. *)
Theorem empty_date_range_raises
  (to_datetime : string -> result Timestamp)
  (df : DataFrame) (start_date end_date : string) (ts te : Timestamp) :
  start_date <> ""%string ->
  end_date <> ""%string ->
  to_datetime start_date = Ok ts ->
  to_datetime end_date = Ok te ->
  ts_lt te ts
  \/ Forall (fun r => ts_lt (Date r) ts \/ ts_lt te (Date r)) df ->
  generate_graph to_datetime df (Some start_date) (Some end_date)
  = Raise (ValueError "nan-07-01").
Proof.
  intros Hs He Hts Hte Hout.
  apply generate_graph_empty.
  unfold select_rows. rewrite (@filter_bound_ok to_datetime start_date ts _ _ Hs Hts). cbn [bind].
  rewrite (@filter_bound_ok to_datetime end_date te _ _ He Hte), filter_twice. f_equal.
  induction df as [| r df IH]; [reflexivity |].
  cbn [filter].
  assert (Hr : ts_leb ts (Date r) && ts_leb (Date r) te = false).
  { apply not_true_iff_false. rewrite andb_true_iff. intros [H1 H2].
    destruct Hout as [Hinv | Hall].
    - pose proof (ts_le_trans H1 H2) as H3.
      unfold ts_lt, ts_le, ts_leb in *. rewrite Hinv in H3. discriminate.
    - apply Forall_inv in Hall.
      unfold ts_lt, ts_le, ts_leb in *.
      destruct Hall as [H | H]; rewrite H in *; discriminate. }
  rewrite Hr. apply IH.
  destruct Hout as [Hinv | Hall]; [now left | right].
  now apply Forall_inv_tail in Hall.
Qed.

Lemma empty_date_range_raises_witness :
  generate_graph iso_to_datetime
    [ mkRecord (mkTimestamp 2024 1 1) None (Some 70%Q) ]
    (Some "2024-06-30"%string) (Some "2024-01-01"%string)
  = Raise (ValueError "nan-07-01").
Proof.
  apply (@empty_date_range_raises iso_to_datetime _ _ _
           (mkTimestamp 2024 6 30) (mkTimestamp 2024 1 1));
    try discriminate; try reflexivity.
  left. reflexivity.
Defined.

Section ColumnFacts.

Lemma count_above_le (prs : Series) (budgets : list R) :
  (count_above prs budgets <= List.length (dropna prs))%nat.
Proof.
  revert budgets. induction prs as [| pr prs IH]; intros [| b budgets];
    cbn [count_above dropna List.length]; try lia.
  specialize (IH budgets). unfold above_budget.
  destruct pr as [q |]; [| cbn [List.length]; lia].
  cbn [List.length]. destruct (Rlt_dec b (Q2R q)); lia.
Qed.

Lemma dropna_length (s : Series) :
  (List.length (dropna s) <= List.length s)%nat.
Proof.
  induction s as [| [q |] s IH]; cbn [dropna List.length]; lia.
Qed.

Lemma dropna_count (s : Series) :
  List.length (dropna s) = column_sum (map notna s).
Proof.
  induction s as [| [q |] s IH]; cbn [dropna map notna List.length];
    rewrite ?column_sum_cons; [reflexivity | |]; lia.
Qed.

Local Open Scope Q_scope.

Lemma percentage_bounds (a t : nat) :
  (a <= t)%nat -> 0 <= percentage a t /\ percentage a t <= 100.
Proof.
  intro Hat. unfold percentage.
  destruct (Nat.ltb_spec 0 t) as [Ht | Ht]; [| split; discriminate].
  assert (Hpos : 0 < inject_Z (Z.of_nat t)).
  { change 0 with (inject_Z 0). rewrite <- Zlt_Qlt. lia. }
  assert (H0 : 0 <= inject_Z (Z.of_nat a)).
  { change 0 with (inject_Z 0). rewrite <- Zle_Qle. lia. }
  assert (Hle : inject_Z (Z.of_nat a) <= inject_Z (Z.of_nat t)).
  { rewrite <- Zle_Qle. lia. }
  split.
  - apply Qmult_le_0_compat; [| discriminate].
    apply Qle_shift_div_l; [exact Hpos |]. now rewrite Qmult_0_l.
  - setoid_replace 100 with (1 * 100) at 2 by reflexivity.
    apply Qmult_le_compat_r; [| discriminate].
    apply Qle_shift_div_r; [exact Hpos |]. now rewrite Qmult_1_l.
Qed.
End ColumnFacts.

(** X9.  In every result of [generate_graph] the columns that are
    drawn have one value for each plotted row; there is at least one
    row; the first and the last date are dates of the plot, and every
    plotted date lies between them. *)
Theorem plot_columns_agree
  (to_datetime : string -> result Timestamp)
  (df : DataFrame) (s e : option string) (st : GraphStats) :
  generate_graph to_datetime df s e = Ok st ->
  let plot := df_plot st in
  (List.length (PR_MA_30 st) = List.length plot
   /\ List.length (color st) = List.length plot
   /\ List.length (Budget_PR st) = List.length plot
   /\ total_points st = List.length plot
   /\ (1 <= List.length plot)%nat)
  /\ exists f l,
      first_date st = Some f /\ last_date st = Some l
      /\ In f (map Date plot) /\ In l (map Date plot)
      /\ ts_le f l
      /\ Forall (fun r => ts_le f (Date r) /\ ts_le (Date r) l) plot.
Proof.
  intros H plot.
  pose proof (generate_graph_plot_rows _ _ _ _ H) as Hne. fold plot in Hne.
  destruct (@generate_graph_shape to_datetime df s e st H)
    as (plot' & epoch & _ & _ & Hst).
  assert (Hplot : plot' = plot) by (unfold plot; now rewrite Hst).
  subst plot'. rewrite Hst. cbn.
  split.
  - rewrite rolling_mean_length, !length_map. repeat split.
    destruct plot; [congruence | cbn; lia].
  - assert (Hdates : map Date plot <> [])
      by (destruct plot; [congruence | discriminate]).
    destruct (ts_min_spec Hdates) as (f & Hf & Hfin & Hfle).
    destruct (ts_max_spec Hdates) as (l & Hl & Hlin & Hlle).
    exists f, l. repeat split; try assumption.
    + now apply Hfle.
    + apply Forall_forall. intros r Hr.
      split; [apply Hfle | apply Hlle]; now apply in_map.
Qed.

Lemma plot_columns_agree_witness :
  exists st,
    generate_graph iso_to_datetime
      [ mkRecord (mkTimestamp 2024 1 1) (Some 3%Q) (Some 70%Q);
        mkRecord (mkTimestamp 2024 1 2) None (Some 72%Q) ] None None = Ok st
    /\ List.length (Budget_PR st) = List.length (df_plot st).
Proof.
  eexists. split.
  - apply generate_graph_run with (epoch := mkTimestamp 2023 7 1);
      reflexivity.
  - match goal with
    | |- List.length (Budget_PR ?st) = _ =>
        destruct (@plot_columns_agree iso_to_datetime
                    [ mkRecord (mkTimestamp 2024 1 1) (Some 3%Q) (Some 70%Q);
                      mkRecord (mkTimestamp 2024 1 2) None (Some 72%Q) ]
                    None None st) as ((_ & _ & Hb & _) & _)
    end.
    + apply generate_graph_run with (epoch := mkTimestamp 2023 7 1);
        reflexivity.
    + exact Hb.
Defined.

(** X10.  The points above the budget are at most the rows that have
    a PR value, hence at most the plotted points, and the percentage
    that is reported lies between 0 and 100. *)
Theorem above_budget_bounds
  (to_datetime : string -> result Timestamp)
  (df : DataFrame) (s e : option string) (st : GraphStats) :
  generate_graph to_datetime df s e = Ok st ->
  (points_above_budget st
   <= column_sum (map (fun r => notna (PR r)) (df_plot st)))%nat
  /\ (points_above_budget st <= total_points st)%nat
  /\ (0 <= percentage_above st)%Q
  /\ (percentage_above st <= 100)%Q
  /\ percentage_above st
     = percentage (points_above_budget st) (total_points st).
Proof.
  intro H.
  destruct (@generate_graph_shape to_datetime df s e st H)
    as (plot & epoch & _ & _ & ->).
  cbn [points_above_budget total_points percentage_above df_plot].
  set (pr := map PR plot).
  set (budgets := map (fun r => calculate_budget_pr epoch (Date r)) plot).
  assert (H1 : (count_above pr budgets <= List.length (dropna pr))%nat)
    by apply count_above_le.
  assert (H2 : (List.length (dropna pr) <= List.length plot)%nat).
  { pose proof (dropna_length pr) as Hd. unfold pr in Hd at 2.
    now rewrite length_map in Hd. }
  assert (H3 : List.length (dropna pr)
               = column_sum (map (fun r => notna (PR r)) plot)).
  { rewrite dropna_count. unfold pr. now rewrite map_map. }
  split; [lia | split; [lia |]].
  destruct (@percentage_bounds (count_above pr budgets) (List.length plot))
    as [Hlo Hhi]; [lia |].
  repeat split; assumption.
Qed.

Lemma above_budget_bounds_witness :
  exists st,
    generate_graph iso_to_datetime
      [ mkRecord (mkTimestamp 2024 1 1) (Some 3%Q) (Some 70%Q);
        mkRecord (mkTimestamp 2024 1 2) None None ] None None = Ok st
    /\ (points_above_budget st <= 1)%nat.
Proof.
  eexists. split.
  - apply generate_graph_run with (epoch := mkTimestamp 2023 7 1);
      reflexivity.
  - match goal with
    | |- (points_above_budget ?st <= _)%nat =>
        destruct (@above_budget_bounds iso_to_datetime
                    [ mkRecord (mkTimestamp 2024 1 1) (Some 3%Q) (Some 70%Q);
                      mkRecord (mkTimestamp 2024 1 2) None None ]
                    None None st) as (Hb & _)
    end.
    + apply generate_graph_run with (epoch := mkTimestamp 2023 7 1);
        reflexivity.
    + exact Hb.
Defined.

Section MeanBounds.
Local Open Scope Q_scope.

Lemma Qlen_cons (x : Q) (xs : list Q) : Qlen (x :: xs) = Qlen xs + 1.
Proof.
  unfold Qlen. cbn [List.length]. rewrite Nat2Z.inj_succ. unfold Z.succ.
  now rewrite inject_Z_plus.
Qed.

Lemma Qlen_pos (x : Q) (xs : list Q) : 0 < Qlen (x :: xs).
Proof.
  unfold Qlen. change 0 with (inject_Z 0). rewrite <- Zlt_Qlt.
  cbn [List.length]. lia.
Qed.

Lemma Qsum_bounds (lo hi : Q) (xs : list Q) :
  Forall (fun x => lo <= x /\ x <= hi) xs ->
  Qlen xs * lo <= Qsum xs /\ Qsum xs <= Qlen xs * hi.
Proof.
  induction 1 as [| x xs [Hlo Hhi] _ [IHlo IHhi]].
  - unfold Qlen, Qsum. cbn [List.length fold_right Z.of_nat].
    change (inject_Z 0) with 0. split; Lqa.lra.
  - rewrite Qlen_cons. cbn [Qsum fold_right]. fold (Qsum xs).
    split; Lqa.nra.
Qed.

Lemma dropna_within (lo hi : Q) (s : Series) :
  Forall (within lo hi) s ->
  Forall (fun x => lo <= x /\ x <= hi) (dropna s).
Proof.
  induction 1 as [| [q |] s Hq _ IH]; cbn [dropna];
    [constructor | constructor; assumption | assumption].
Qed.

(** A mean lies where its values lie. *)
Lemma mean_within (lo hi : Q) (s : Series) :
  Forall (within lo hi) s -> within lo hi (mean s).
Proof.
  intro H. apply dropna_within in H. unfold mean.
  destruct (dropna s) as [| x xs]; [exact I |].
  destruct (Qsum_bounds H) as [Hlo Hhi].
  pose proof (Qlen_pos x xs) as Hpos.
  cbn [within]. split.
  - apply Qle_shift_div_l; [exact Hpos |]. now rewrite Qmult_comm.
  - apply Qle_shift_div_r; [exact Hpos |]. now rewrite Qmult_comm.
Qed.

Lemma dropna_constant (c : Q) (s : Series) :
  Forall (fun v => v = Some c) s -> dropna s = repeat c (List.length s).
Proof.
  induction 1 as [| v s -> _ IH]; [reflexivity |].
  cbn [dropna List.length repeat]. now rewrite IH.
Qed.
End MeanBounds.

(** X12.  Where the rows of the trailing window all hold the same PR
    value, the moving average is that value. *)
Theorem moving_average_of_constant_run (pr : Series) (i : nat) (c : Q) :
  (i < List.length pr)%nat ->
  Forall (fun v => v = Some c) (window_at 30 i pr) ->
  exists m,
    nth_error (rolling_mean 30 1 pr) i = Some (Some m) /\ (m == c)%Q.
Proof.
  intros Hi Hc. rewrite rolling_mean_nth by exact Hi.
  assert (Hlen : List.length (window_at 30 i pr) = Nat.min 30 (S i)).
  { rewrite window_at_last_points by exact Hi.
    rewrite last_points_length, length_firstn. lia. }
  assert (Hin : Forall (within c c) (window_at 30 i pr)).
  { eapply Forall_impl; [| exact Hc]. intros v ->. cbn.
    split; apply Qle_refl. }
  apply mean_within in Hin.
  unfold mean in *. rewrite (dropna_constant Hc) in *. rewrite Hlen in *.
  destruct (Nat.min 30 (S i)) as [| n] eqn:En; [lia |].
  cbn [repeat] in *. eexists. split; [reflexivity |].
  cbn [within] in Hin. now apply Qle_antisym.
Qed.

Lemma moving_average_of_constant_run_witness :
  exists m,
    nth_error (rolling_mean 30 1 [Some 71%Q; Some 71%Q; Some 71%Q]) 2
    = Some (Some m)
    /\ (m == 71)%Q.
Proof.
  apply (@moving_average_of_constant_run
           [Some 71%Q; Some 71%Q; Some 71%Q] 2 71%Q).
  - cbn. lia.
  - repeat constructor.
Defined.

(** * The calendar and the budget along the table *)

Section CalendarOrder.
Local Open Scope Z_scope.

Lemma days_before_year_step (y : Z) :
  days_before_year (y + 1)
  = days_before_year y + 365 + (if is_leap y then 1 else 0).
Proof.
  unfold days_before_year. cbn zeta. replace (y + 1 - 1) with y by lia.
  destruct (is_leap_cases y) as [[-> Hy] | [-> Hy]];
    Z.div_mod_to_equations; lia.
Qed.

Lemma days_before_year_grows (n : nat) (y : Z) :
  days_before_year y + 365 * Z.of_nat n <= days_before_year (y + Z.of_nat n).
Proof.
  induction n as [| n IH].
  - cbn [Z.of_nat]. rewrite !Z.add_0_r. lia.
  - rewrite Nat2Z.inj_succ.
    replace (y + Z.succ (Z.of_nat n)) with (y + Z.of_nat n + 1) by lia.
    rewrite days_before_year_step. destruct (is_leap (y + Z.of_nat n)); lia.
Qed.

Lemma days_before_year_mono (y1 y2 : Z) :
  y1 <= y2 -> days_before_year y1 <= days_before_year y2.
Proof.
  intro H. pose proof (days_before_year_grows (Z.to_nat (y2 - y1)) y1) as Hg.
  rewrite Z2Nat.id in Hg by lia.
  replace (y1 + (y2 - y1)) with y2 in Hg by lia. lia.
Qed.

Ltac month_cases m :=
  let H := fresh "Hm" in
  assert (H : m = 1 \/ m = 2 \/ m = 3 \/ m = 4 \/ m = 5 \/ m = 6 \/ m = 7
              \/ m = 8 \/ m = 9 \/ m = 10 \/ m = 11 \/ m = 12) by lia;
  destruct H as [-> | [-> | [-> | [-> | [-> | [-> | [-> | [-> | [-> | [->
                | [-> | ->]]]]]]]]]]].

(** The day of the year of an existing day. *)
Lemma day_of_year_bounds (y m d : Z) :
  1 <= m <= 12 -> 1 <= d <= days_in_month y m ->
  1 <= days_before_month y m + d
  /\ days_before_month y m + d <= 365 + (if is_leap y then 1 else 0).
Proof.
  intros Hm. unfold days_before_month, days_in_month.
  destruct (is_leap y); month_cases m; cbn -[Z.add]; lia.
Qed.

Lemma day_of_year_mono (y m1 d1 m2 d2 : Z) :
  1 <= m1 <= 12 -> 1 <= d1 <= days_in_month y m1 ->
  1 <= m2 <= 12 -> 1 <= d2 <= days_in_month y m2 ->
  m1 < m2 \/ (m1 = m2 /\ d1 <= d2) ->
  days_before_month y m1 + d1 <= days_before_month y m2 + d2.
Proof.
  intros Hm1 Hd1 Hm2. revert Hd1.
  unfold days_before_month, days_in_month.
  destruct (is_leap y); month_cases m1; month_cases m2; cbn -[Z.add]; lia.
Qed.

(** On existing days the ordinal follows the order of the dates. *)
Lemma toordinal_mono (a b : Timestamp) :
  valid_date a -> valid_date b -> ts_le a b -> toordinal a <= toordinal b.
Proof.
  intros [Hma Hda] [Hmb Hdb] Hle. unfold ts_le in Hle.
  rewrite ts_leb_spec in Hle. unfold toordinal.
  destruct a as [ya ma da], b as [yb mb db]. cbn [year month day] in *.
  destruct Hle as [Hy | [-> Hmd]].
  - pose proof (day_of_year_bounds ya Hma Hda) as [_ Ha].
    pose proof (day_of_year_bounds yb Hmb Hdb) as [Hb _].
    pose proof (days_before_year_step ya) as Hstep.
    assert (Hmono : days_before_year (ya + 1) <= days_before_year yb)
      by (apply days_before_year_mono; lia).
    lia.
  - pose proof (day_of_year_mono yb Hma Hda Hmb Hdb Hmd). lia.
Qed.

Lemma july_first_valid (y : Z) : valid_date (mkTimestamp y 7 1).
Proof. unfold valid_date. cbn. lia. Qed.
End CalendarOrder.

Section BudgetAlongTime.

Lemma add_one_year_july (y : Z) :
  add_one_year (mkTimestamp y 7 1) = mkTimestamp (y + 1) 7 1.
Proof. reflexivity. Qed.

Lemma july_first_le (y : Z) (l : Timestamp) :
  (1 <= day l)%Z ->
  ts_leb (mkTimestamp y 7 1) l = true <-> (y <= budget_year_of l)%Z.
Proof.
  intro Hd. rewrite ts_leb_spec. unfold budget_year_of.
  cbn [year month day]. destruct (Z.leb_spec 7 (month l)); lia.
Qed.

Lemma budget_year_of_mono (a b : Timestamp) :
  ts_le a b -> (budget_year_of a <= budget_year_of b)%Z.
Proof.
  unfold ts_le. rewrite ts_leb_spec. unfold budget_year_of.
  destruct (Z.leb_spec 7 (month a)), (Z.leb_spec 7 (month b)); lia.
Qed.

(** The loop of the labels ends after one round for each first of July
    up to the last date, and one more test. *)
Lemma budget_years_run (n : nat) :
  forall (fuel : nat) (y : Z) (epoch l : Timestamp),
    (1 <= day l)%Z ->
    Z.of_nat n = Z.max 0 (budget_year_of l - y + 1) ->
    (n < fuel)%nat ->
    budget_years fuel epoch (mkTimestamp y 7 1) l
    = Some (yearly_budgets epoch y n).
Proof.
  induction n as [| n IH]; intros fuel y epoch l Hd Hn Hfuel;
    (destruct fuel as [| fuel]; [lia |]); cbn [budget_years yearly_budgets].
  - destruct (ts_leb (mkTimestamp y 7 1) l) eqn:E; [| reflexivity].
    apply july_first_le in E; [lia | exact Hd].
  - destruct (ts_leb (mkTimestamp y 7 1) l) eqn:E.
    + rewrite add_one_year_july, (IH fuel (y + 1)%Z epoch l Hd); [reflexivity | lia | lia].
    + exfalso. apply not_true_iff_false in E. apply E.
      apply july_first_le; [exact Hd | lia].
Qed.

Lemma budget_years_short (n : nat) :
  forall (fuel : nat) (y : Z) (epoch l : Timestamp),
    (1 <= day l)%Z ->
    Z.of_nat n = Z.max 0 (budget_year_of l - y + 1) ->
    (fuel <= n)%nat ->
    budget_years fuel epoch (mkTimestamp y 7 1) l = None.
Proof.
  induction n as [| n IH]; intros fuel y epoch l Hd Hn Hfuel;
    (destruct fuel as [| fuel]; [reflexivity |]); [lia |].
  cbn [budget_years].
  assert (E : ts_leb (mkTimestamp y 7 1) l = true)
    by (apply july_first_le; [exact Hd | lia]).
  rewrite E, add_one_year_july, (IH fuel (y + 1)%Z epoch l Hd);
    [reflexivity | lia | lia].
Qed.

Lemma yearly_budgets_length (epoch : Timestamp) (y : Z) (n : nat) :
  List.length (yearly_budgets epoch y n) = n.
Proof.
  revert y. induction n as [| n IH]; intro y; cbn; [reflexivity |].
  now rewrite IH.
Qed.

Local Open Scope R_scope.

(** Later on the calendar, lower on the curve. *)
Lemma budget_mono (e a b : Timestamp) :
  (toordinal a <= toordinal b)%Z ->
  calculate_budget_pr e b <= calculate_budget_pr e a.
Proof.
  intro H. rewrite !budget_unfold. unfold days_between.
  apply Rmult_le_compat_l; [lra |].
  destruct (Z.eq_dec (toordinal a) (toordinal b)) as [-> | Hne];
    [apply Rle_refl |].
  left. apply Rpower_base_decreasing.
  assert (Hlt : (toordinal a - toordinal e < toordinal b - toordinal e)%Z)
    by lia.
  apply IZR_lt in Hlt. lra.
Qed.

Lemma budget_strict_mono (e a b : Timestamp) :
  (toordinal a < toordinal b)%Z ->
  calculate_budget_pr e b < calculate_budget_pr e a.
Proof.
  intro H. rewrite !budget_unfold. unfold days_between.
  apply Rmult_lt_compat_l; [lra |].
  apply Rpower_base_decreasing.
  assert (Hlt : (toordinal a - toordinal e < toordinal b - toordinal e)%Z)
    by lia.
  apply IZR_lt in Hlt. lra.
Qed.

Lemma july_ordinal_grows (y : Z) :
  (toordinal (mkTimestamp y 7 1) < toordinal (mkTimestamp (y + 1) 7 1))%Z.
Proof.
  pose proof (july_to_july y) as H. unfold days_between in H.
  destruct (is_leap (y + 1)); lia.
Qed.

Lemma yearly_budgets_decrease (epoch : Timestamp) (y : Z) (n : nat) :
  Sorted (fun a b => b < a) (yearly_budgets epoch y n).
Proof.
  revert y. induction n as [| n IH]; intro y; cbn [yearly_budgets];
    [constructor |].
  constructor; [apply IH |].
  destruct n as [| n]; cbn [yearly_budgets]; constructor.
  apply budget_strict_mono, july_ordinal_grows.
Qed.
End BudgetAlongTime.

(** X13.  The loop that builds the label of the budget line ends: it
    takes one round for each first of July from the reference epoch up to
    the last date, which is at least one round, and one more test.  The
    values it collects are the budgets at these first days of July; the
    first is 73.9 and each next one is lower. *)
Theorem budget_label_years
  (to_datetime : string -> result Timestamp)
  (df : DataFrame) (s e : option string) (st : GraphStats) :
  generate_graph to_datetime df s e = Ok st ->
  Forall valid_date (map Date (df_plot st)) ->
  exists f l n years,
    first_date st = Some f
    /\ last_date st = Some l
    /\ Z.of_nat n = (budget_year_of l - budget_year_of f + 1)%Z
    /\ (1 <= n)%nat
    /\ years = yearly_budgets (budget_start_date st) (budget_year_of f) n
    /\ (forall extra,
           budget_years (S n + extra) (budget_start_date st)
             (budget_start_date st) l = Some years)
    /\ budget_years n (budget_start_date st) (budget_start_date st) l = None
    /\ List.length years = n
    /\ nth_error years 0 = Some 73.9%R
    /\ Sorted (fun a b => (b < a)%R) years.
Proof.
  intros H Hvalid.
  pose proof (@generate_graph_plot_rows to_datetime df s e st H) as Hne.
  destruct (@generate_graph_shape to_datetime df s e st H)
    as (plot & epoch & _ & Hepoch & Hst).
  assert (Hplot : df_plot st = plot) by now rewrite Hst.
  rewrite Hplot in *.
  assert (Hdates : map Date plot <> [])
    by (destruct plot; [congruence | discriminate]).
  destruct (ts_min_spec Hdates) as (f & Hf & Hfin & Hfle).
  destruct (ts_max_spec Hdates) as (l & Hl & Hlin & Hlle).
  rewrite Hf, reference_year_of in Hepoch. fold (budget_year_of f) in Hepoch.
  injection Hepoch as <-.
  assert (Hbsd : budget_start_date st = mkTimestamp (budget_year_of f) 7 1)
    by now rewrite Hst.
  rewrite Hbsd.
  assert (Hfl : (budget_year_of f <= budget_year_of l)%Z)
    by (apply budget_year_of_mono; now apply Hfle).
  assert (Hday : (1 <= day l)%Z).
  { rewrite Forall_forall in Hvalid. apply (Hvalid l Hlin). }
  set (n := Z.to_nat (budget_year_of l - budget_year_of f + 1)).
  assert (Hn : Z.of_nat n = (budget_year_of l - budget_year_of f + 1)%Z)
    by (unfold n; lia).
  exists f, l, n, (yearly_budgets (mkTimestamp (budget_year_of f) 7 1)
                     (budget_year_of f) n).
  split; [now rewrite Hst |]. split; [now rewrite Hst |].
  split; [exact Hn |]. split; [lia |]. split; [reflexivity |].
  split; [| split; [| split; [| split]]].
  - intro extra. apply budget_years_run; [exact Hday | lia | lia].
  - apply budget_years_short with (n := n); [exact Hday | lia | lia].
  - apply yearly_budgets_length.
  - destruct n as [| n']; [lia |]. cbn [yearly_budgets nth_error].
    now rewrite budget_at_epoch.
  - apply yearly_budgets_decrease.
Qed.

Lemma budget_label_years_witness :
  exists st n,
    generate_graph iso_to_datetime
      [ mkRecord (mkTimestamp 2023 8 1) None (Some 70%Q);
        mkRecord (mkTimestamp 2025 3 1) None (Some 72%Q) ] None None = Ok st
    /\ Z.of_nat n = 2%Z
    /\ budget_years n (budget_start_date st) (budget_start_date st)
         (mkTimestamp 2025 3 1) = None.
Proof.
  assert (Hrun :
    generate_graph iso_to_datetime
      [ mkRecord (mkTimestamp 2023 8 1) None (Some 70%Q);
        mkRecord (mkTimestamp 2025 3 1) None (Some 72%Q) ] None None
    = Ok (let plot := [ mkRecord (mkTimestamp 2023 8 1) None (Some 70%Q);
                        mkRecord (mkTimestamp 2025 3 1) None (Some 72%Q) ] in
          let pr := map PR plot in
          let budgets :=
            map (fun r => calculate_budget_pr (mkTimestamp 2023 7 1) (Date r))
              plot in
          mkStats plot (rolling_mean 30 1 pr)
            (map (fun r => get_ghi_color (GHI r)) plot)
            (ts_min (map Date plot)) (ts_max (map Date plot))
            (mkTimestamp 2023 7 1) budgets (count_above pr budgets)
            (List.length plot)
            (percentage (count_above pr budgets) (List.length plot))
            (mean (tail 7 pr)) (mean (tail 30 pr)) (mean (tail 60 pr))
            (mean (tail 90 pr)) (mean (tail 365 pr)) (mean pr))).
  { apply generate_graph_run; reflexivity. }
  destruct (@budget_label_years _ _ _ _ _ Hrun)
    as (f & l & n & years & Hf & Hl & Hn & _ & _ & _ & Hshort & _).
  - repeat constructor; cbn; lia.
  - cbn in Hf, Hl. injection Hf as <-. injection Hl as <-.
    eexists. exists n. split; [exact Hrun |]. split; [exact Hn |].
    exact Hshort.
Defined.

Section BudgetColumn.
Variable to_datetime : string -> result Timestamp.

Lemma StronglySorted_filter {A : Type} (R : A -> A -> Prop)
  (f : A -> bool) (l : list A) :
  StronglySorted R l -> StronglySorted R (filter f l).
Proof.
  induction 1 as [| a l Hs IH Ha]; cbn [filter]; [constructor |].
  destruct (f a); [| exact IH].
  constructor; [exact IH |].
  rewrite Forall_forall in *. intros x Hx. apply filter_In in Hx.
  now apply Ha.
Qed.

Lemma Forall_filter' {A : Type} (P : A -> Prop) (f : A -> bool)
  (l : list A) : Forall P l -> Forall P (filter f l).
Proof.
  rewrite !Forall_forall. intros H x Hx. apply filter_In in Hx.
  now apply H.
Qed.

(** The rows that are plotted are rows of the table, in its order. *)
Lemma filter_bound_keeps (bound : option string)
  (keep : Timestamp -> Timestamp -> bool) (df plot : DataFrame)
  (P : DateRecord -> Prop) (R : DateRecord -> DateRecord -> Prop) :
  filter_bound to_datetime bound keep df = Ok plot ->
  (Forall P df -> Forall P plot)
  /\ (StronglySorted R df -> StronglySorted R plot).
Proof.
  unfold filter_bound. destruct bound as [b |]; [| now intros [= <-]].
  destruct (String.eqb b ""); [now intros [= <-] |].
  destruct (to_datetime b) as [t | x]; cbn [bind]; [| discriminate].
  intros [= <-]. split; [apply Forall_filter' | apply StronglySorted_filter].
Qed.

Lemma select_rows_keeps (s e : option string) (df plot : DataFrame)
  (P : DateRecord -> Prop) (R : DateRecord -> DateRecord -> Prop) :
  select_rows to_datetime df s e = Ok plot ->
  (Forall P df -> Forall P plot)
  /\ (StronglySorted R df -> StronglySorted R plot).
Proof.
  unfold select_rows.
  destruct (filter_bound to_datetime s _ df) as [p1 | x] eqn:E1;
    cbn [bind]; [| discriminate].
  intro E2.
  destruct (@filter_bound_keeps _ _ _ _ P R E1) as [HP1 HR1].
  destruct (@filter_bound_keeps _ _ _ _ P R E2) as [HP2 HR2].
  split; auto.
Qed.

Lemma budget_column_sorted (epoch : Timestamp) (plot : DataFrame) :
  StronglySorted (fun a b => ts_le (Date a) (Date b)) plot ->
  Forall (fun r => valid_date (Date r)) plot ->
  StronglySorted (fun a b => (b <= a)%R)
    (map (fun r => calculate_budget_pr epoch (Date r)) plot).
Proof.
  induction 1 as [| a l Hs IH Ha]; intro HP; cbn [map]; [constructor |].
  apply Forall_cons_iff in HP. destruct HP as [Hva HPl].
  constructor; [now apply IH |].
  apply Forall_map, Forall_forall. intros b Hb.
  apply budget_mono, toordinal_mono; [exact Hva | |].
  - rewrite Forall_forall in HPl. now apply HPl.
  - rewrite Forall_forall in Ha. now apply Ha.
Qed.
End BudgetColumn.

(** X14.  Along a table in ascending order of existing days, as the
    merge stage builds it, the budget line never rises, starts at 73.9 or
    below and stays above 0. *)
Theorem budget_line_decays
  (to_datetime : string -> result Timestamp)
  (df : DataFrame) (s e : option string) (st : GraphStats) :
  generate_graph to_datetime df s e = Ok st ->
  StronglySorted (fun a b => ts_le (Date a) (Date b)) df ->
  Forall (fun r => valid_date (Date r)) df ->
  StronglySorted (fun a b => (b <= a)%R) (Budget_PR st)
  /\ Forall (fun b => (0 < b)%R /\ (b <= 73.9)%R) (Budget_PR st).
Proof.
  intros H Hsorted Hvalid.
  pose proof (@generate_graph_plot_rows to_datetime df s e st H) as Hne.
  destruct (@generate_graph_shape to_datetime df s e st H)
    as (plot & epoch & Hsel & Hepoch & Hst).
  assert (Hplot : df_plot st = plot) by now rewrite Hst.
  rewrite Hplot in Hne.
  destruct (@select_rows_keeps to_datetime s e df plot
              (fun r => valid_date (Date r))
              (fun a b => ts_le (Date a) (Date b)) Hsel) as [HP HR].
  specialize (HP Hvalid). specialize (HR Hsorted).
  assert (Hdates : map Date plot <> [])
    by (destruct plot; [congruence | discriminate]).
  destruct (ts_min_spec Hdates) as (f & Hf & Hfin & Hfle).
  rewrite Hf, reference_year_of in Hepoch. injection Hepoch as <-.
  assert (Hfvalid : valid_date f).
  { apply in_map_iff in Hfin. destruct Hfin as (r & <- & Hr).
    rewrite Forall_forall in HP. now apply HP. }
  destruct (july_first_latest f) as [Hef _]; [apply Hfvalid |].
  rewrite Hst. cbn [Budget_PR]. clear Hst Hplot Hsel Hf Hdates Hne.
  split.
  - now apply budget_column_sorted.
  - apply Forall_map, Forall_forall. intros r Hr. split; [apply budget_pos |].
    set (epoch := mkTimestamp (if (7 <=? month f)%Z then year f
                               else (year f - 1)%Z) 7 1) in *.
    apply Rle_trans with (calculate_budget_pr epoch epoch);
      [| rewrite budget_at_epoch; apply Rle_refl].
    apply budget_mono, toordinal_mono.
    + apply july_first_valid.
    + rewrite Forall_forall in HP. now apply HP.
    + apply ts_le_trans with f; [exact Hef |].
      apply Hfle. now apply in_map.
Qed.

Lemma budget_line_decays_witness :
  exists st,
    generate_graph iso_to_datetime
      [ mkRecord (mkTimestamp 2024 1 1) (Some 3%Q) (Some 70%Q);
        mkRecord (mkTimestamp 2024 1 2) None (Some 72%Q) ] None None = Ok st
    /\ Forall (fun b => (0 < b)%R /\ (b <= 73.9)%R) (Budget_PR st).
Proof.
  eexists. split.
  - apply generate_graph_run with (epoch := mkTimestamp 2023 7 1);
      reflexivity.
  - match goal with
    | |- Forall _ (Budget_PR ?st) =>
        destruct (@budget_line_decays iso_to_datetime
                    [ mkRecord (mkTimestamp 2024 1 1) (Some 3%Q) (Some 70%Q);
                      mkRecord (mkTimestamp 2024 1 2) None (Some 72%Q) ]
                    None None st) as (_ & Hb)
    end.
    + apply generate_graph_run with (epoch := mkTimestamp 2023 7 1);
        reflexivity.
    + repeat constructor.
    + repeat constructor; cbn; lia.
    + exact Hb.
Defined.

(** * The folder checker *)

Section FolderFacts.

Lemma ends_with_refl (s : string) : ends_with s s = true.
Proof. destruct s; cbn [ends_with]; now rewrite String.eqb_refl. Qed.

Lemma ends_with_tail (c : ascii) (suffix name : string) :
  ends_with (String c suffix) name = true -> ends_with suffix name = true.
Proof.
  induction name as [| a name IH]; cbn [ends_with].
  - rewrite orb_false_r. intro H. apply String.eqb_eq in H. discriminate.
  - intro H. apply orb_true_iff in H. apply orb_true_iff. right.
    destruct H as [H | H].
    + apply String.eqb_eq in H. injection H as _ <-. apply ends_with_refl.
    + now apply IH.
Qed.

(** A name that matches [*_PR.csv] or [*_GHI.csv] matches [*.csv]. *)
Lemma csv_patterns (name : string) :
  (ends_with "_PR.csv" name = true -> ends_with ".csv" name = true)
  /\ (ends_with "_GHI.csv" name = true -> ends_with ".csv" name = true).
Proof.
  split; intro H.
  - now apply ends_with_tail, ends_with_tail, ends_with_tail in H.
  - now apply ends_with_tail, ends_with_tail, ends_with_tail,
      ends_with_tail in H.
Qed.

Lemma matching_length (suffix : string) (entries : list (PathParts * FsNode)) :
  List.length (matching suffix entries)
  = List.length
      (filter (fun pn => ends_with suffix (node_name (snd pn))) entries).
Proof. unfold matching. apply length_map. Qed.

Lemma matching_app (suffix : string) (l l' : list (PathParts * FsNode)) :
  matching suffix (l ++ l') = matching suffix l ++ matching suffix l'.
Proof. unfold matching. now rewrite filter_app, map_app. Qed.

Lemma matching_incl (s1 s2 : string) (entries : list (PathParts * FsNode)) :
  (forall name, ends_with s1 name = true -> ends_with s2 name = true) ->
  incl (matching s1 entries) (matching s2 entries)
  /\ (List.length (matching s1 entries)
      <= List.length (matching s2 entries))%nat.
Proof.
  intro Himp. split.
  - intros p Hp. unfold matching in *. apply in_map_iff in Hp.
    destruct Hp as (pn & <- & Hin). apply filter_In in Hin.
    apply in_map. apply filter_In. split; [apply Hin | apply Himp, Hin].
  - induction entries as [| pn entries IH]; [reflexivity |].
    unfold matching in *. cbn [filter].
    destruct (ends_with s1 (node_name (snd pn))) eqn:E.
    + rewrite (Himp _ E). cbn [map List.length]. lia.
    + destruct (ends_with s2 (node_name (snd pn))); cbn [map List.length];
        lia.
Qed.

Lemma child_split (name : string) (nm : string) (children : list FsNode)
  (c : FsNode) :
  child name (FsDir nm children) = Some c ->
  node_name c = name /\ In c children.
Proof.
  cbn [child]. intro H. apply find_some in H.
  destruct H as [Hin Hname]. apply String.eqb_eq in Hname. now split.
Qed.

Lemma filter_flat_map_one {A B : Type} (f : B -> bool) (g : A -> list B)
  (l : list A) (a : A) :
  In a l ->
  (List.length (filter f (g a))
   <= List.length (filter f (flat_map g l)))%nat.
Proof.
  induction l as [| a0 l IH]; [intros [] |].
  cbn [flat_map]. rewrite filter_app, length_app.
  intros [-> | Hin]; [lia |]. specialize (IH Hin). lia.
Qed.

Lemma filter_flat_map_two {A B : Type} (f : B -> bool) (g : A -> list B)
  (l : list A) (a b : A) :
  In a l -> In b l -> a <> b ->
  (List.length (filter f (g a)) + List.length (filter f (g b))
   <= List.length (filter f (flat_map g l)))%nat.
Proof.
  induction l as [| a0 l IH]; [intros [] |].
  cbn [flat_map]. rewrite filter_app, length_app.
  intros [-> | Ha] [-> | Hb] Hab.
  - congruence.
  - pose proof (filter_flat_map_one f g l b Hb). lia.
  - pose proof (filter_flat_map_one f g l a Ha). lia.
  - specialize (IH Ha Hb Hab). lia.
Qed.

Lemma walk_two_children (suffix : string) (nm : string)
  (children : list FsNode) (a b : FsNode) :
  In a children -> In b children -> a <> b ->
  (List.length (rglob suffix [node_name a] a)
   + List.length (rglob suffix [node_name b] b)
   <= List.length (rglob suffix [] (FsDir nm children)))%nat.
Proof.
  intros Ha Hb Hab. unfold rglob. rewrite !matching_length.
  cbn [walk]. cbn zeta.
  match goal with
  | |- context [filter ?F (flat_map ?g children)] =>
      pose proof (filter_flat_map_two F g children Ha Hb Hab) as H
  end.
  cbv beta in H.
  change ([] ++ [node_name a]) with [node_name a] in H.
  change ([] ++ [node_name b]) with [node_name b] in H.
  cbn [filter snd] in H. revert H.
  destruct (ends_with suffix (node_name a));
    destruct (ends_with suffix (node_name b));
    cbn [List.length]; intro H;
    (eapply Nat.le_trans; [| exact H]); lia.
Qed.
End FolderFacts.

(** X16.  What the checker counts as PR files and GHI files are
    among the files that [preprocess_data] enumerates under the same
    folders, for its patterns [*_PR.csv] and [*_GHI.csv] are narrower
    than [*.csv]; and the CSV files it finds in the whole working
    directory are at least those under [PR] and [GHI] together. *)
Theorem checker_counts_are_lower_bounds
  (name : string) (children : list FsNode) (pr ghi : FsNode)
  (rep : FolderReport) :
  let cwd := FsDir name children in
  child "PR" cwd = Some pr ->
  child "GHI" cwd = Some ghi ->
  check_folder_structure cwd = inr rep ->
  exists p g,
    pr_report rep = Some p
    /\ ghi_report rep = Some g
    /\ incl (rglob "_PR.csv" ["PR"%string] pr) (source_files "PR" cwd)
    /\ incl (rglob "_GHI.csv" ["GHI"%string] ghi) (source_files "GHI" cwd)
    /\ (pr_files_total p <= List.length (source_files "PR" cwd))%nat
    /\ (ghi_files_total g <= List.length (source_files "GHI" cwd))%nat
    /\ (List.length (source_files "PR" cwd)
        + List.length (source_files "GHI" cwd) <= csv_total rep)%nat.
Proof.
  intros cwd Hpr Hghi Hrun.
  unfold check_folder_structure in Hrun. cbn [iterdir cwd] in Hrun.
  unfold check_pr_folder in Hrun. fold cwd in Hrun. rewrite Hpr in Hrun.
  destruct (iterdir ["PR"%string] pr) as [err | entries]; [discriminate |].
  injection Hrun as <-.
  unfold check_ghi_folder. rewrite Hghi.
  cbn [pr_report ghi_report csv_total].
  eexists. eexists. split; [reflexivity |]. split; [reflexivity |].
  cbn [pr_files_total ghi_files_total].
  unfold source_files. rewrite Hpr, Hghi.
  destruct (child_split _ _ _ Hpr) as [Hprn Hprin].
  destruct (child_split _ _ _ Hghi) as [Hghin Hghiin].
  destruct (matching_incl "_PR.csv" ".csv" (walk ["PR"%string] pr))
    as [Hi1 Hl1]; [apply csv_patterns |].
  destruct (matching_incl "_GHI.csv" ".csv" (walk ["GHI"%string] ghi))
    as [Hi2 Hl2]; [apply csv_patterns |].
  repeat split; try assumption.
  assert (Hne : pr <> ghi).
  { intros ->. rewrite Hprn in Hghin. discriminate. }
  pose proof (walk_two_children ".csv" name children Hprin Hghiin Hne) as H.
  rewrite Hprn, Hghin in H. exact H.
Qed.

Lemma checker_counts_are_lower_bounds_witness :
  exists rep p,
    check_folder_structure
      (FsDir "work"
         [ FsDir "GHI" [FsDir "2024-01" [FsFile "a_GHI.csv"]];
           FsDir "PR"
             [FsDir "2024-01" [FsFile "a_PR.csv"; FsFile "notes.csv"]];
           FsFile "script.py" ]) = inr rep
    /\ pr_report rep = Some p
    /\ (pr_files_total p <= 2)%nat
    /\ (2 + 1 <= csv_total rep)%nat.
Proof.
  destruct (@checker_counts_are_lower_bounds "work"
              [ FsDir "GHI" [FsDir "2024-01" [FsFile "a_GHI.csv"]];
                FsDir "PR"
                  [FsDir "2024-01" [FsFile "a_PR.csv"; FsFile "notes.csv"]];
                FsFile "script.py" ]
              _ _ _ eq_refl eq_refl eq_refl)
    as (p & g & Hp & _ & _ & _ & Hpr & _ & Hall).
  eexists. exists p. split; [reflexivity |].
  split; [exact Hp | split; [exact Hpr | exact Hall]].
Defined.

(** * More on the table and its columns *)

Section SortedEnds.

Lemma sorted_min (df : DataFrame) (r0 : DateRecord) :
  StronglySorted (fun a b => ts_le (Date a) (Date b)) (r0 :: df) ->
  ts_min (map Date (r0 :: df)) = Some (Date r0).
Proof.
  intro Hs. apply StronglySorted_inv in Hs. destruct Hs as [_ Hall].
  destruct (@ts_min_spec (map Date (r0 :: df))) as (f & Hf & Hin & Hle);
    [discriminate |].
  rewrite Hf. f_equal. apply ts_le_antisym.
  - apply Hle. now left.
  - cbn [map] in Hin. destruct Hin as [<- | Hin]; [apply ts_le_refl |].
    apply in_map_iff in Hin. destruct Hin as (r & <- & Hr).
    rewrite Forall_forall in Hall. now apply Hall.
Qed.

Lemma last_default {A : Type} (l : list A) (a d d' : A) :
  last (a :: l) d = last (a :: l) d'.
Proof.
  revert a. induction l as [| b l IH]; intro a; [reflexivity |].
  change (last (a :: b :: l) d) with (last (b :: l) d).
  change (last (a :: b :: l) d') with (last (b :: l) d').
  apply IH.
Qed.

Lemma sorted_last_le (df : DataFrame) (r0 r : DateRecord) :
  StronglySorted (fun a b => ts_le (Date a) (Date b)) (r0 :: df) ->
  In r (r0 :: df) -> ts_le (Date r) (Date (last (r0 :: df) r0)).
Proof.
  revert r0 r. induction df as [| r1 df IH]; intros r0 r Hs Hin.
  - destruct Hin as [<- | []]. apply ts_le_refl.
  - apply StronglySorted_inv in Hs. destruct Hs as [Hs Hall].
    change (last (r0 :: r1 :: df) r0) with (last (r1 :: df) r0).
    assert (Hlast : last (r1 :: df) r0 = last (r1 :: df) r1)
      by apply last_default.
    rewrite Hlast.
    destruct Hin as [<- | Hin]; [| now apply IH].
    apply ts_le_trans with (Date r1).
    + apply Forall_inv in Hall. exact Hall.
    + apply IH; [exact Hs | now left].
Qed.

Lemma sorted_max (df : DataFrame) (r0 : DateRecord) :
  StronglySorted (fun a b => ts_le (Date a) (Date b)) (r0 :: df) ->
  ts_max (map Date (r0 :: df)) = Some (Date (last (r0 :: df) r0)).
Proof.
  intro Hs.
  destruct (@ts_max_spec (map Date (r0 :: df))) as (m & Hm & Hin & Hle);
    [discriminate |].
  rewrite Hm. f_equal. apply ts_le_antisym.
  - apply in_map_iff in Hin. destruct Hin as (r & <- & Hr).
    now apply sorted_last_le.
  - apply Hle. apply in_map.
    destruct (@exists_last _ (r0 :: df)) as (l' & a & Ha); [discriminate |].
    rewrite Ha. rewrite last_last. apply in_or_app. right. now left.
Qed.
End SortedEnds.

(** X18.  Once the rows are sorted by date (line 70), the date range
    that [preprocess_data] prints (line 88) is made of the dates of the
    first and of the last row of the table, and a chart of the whole table
    has exactly these as its first and last date (lines 136-137).  Every
    row has a date here. *)
Theorem date_range_is_first_and_last_row
  (to_datetime : string -> result Timestamp) (rows : DataFrame) :
  rows <> [] ->
  let df := sort_values rows in
  exists r0 rest st,
    df = r0 :: rest
    /\ date_range (data_statistics df)
       = (Some (Date r0), Some (Date (last df r0)))
    /\ generate_graph to_datetime df None None = Ok st
    /\ first_date st = Some (Date r0)
    /\ last_date st = Some (Date (last df r0))
    /\ (forall r, In r rows ->
          ts_le (Date r0) (Date r) /\ ts_le (Date r) (Date (last df r0))).
Proof.
  intros Hne df.
  pose proof (sort_values_ascending rows) as Hs.
  pose proof (sort_values_perm rows) as Hp.
  fold df in Hs, Hp.
  destruct df as [| r0 rest] eqn:Edf.
  - apply Permutation_sym, Permutation_nil in Hp. contradiction.
  - pose proof (sorted_min Hs) as Hmin. pose proof (sorted_max Hs) as Hmax.
    exists r0, rest. eexists. split; [reflexivity |].
    split; [cbn [data_statistics date_range]; now rewrite Hmin, Hmax |].
    split.
    { apply generate_graph_run with (plot := r0 :: rest); [reflexivity |].
      rewrite Hmin, reference_year_of. reflexivity. }
    cbn [first_date last_date]. rewrite Hmin, Hmax.
    split; [reflexivity |]. split; [reflexivity |].
    intros r Hr. apply (Permutation_in _ Hp) in Hr. split.
    + apply StronglySorted_inv in Hs. destruct Hs as [_ Hall].
      destruct Hr as [<- | Hr]; [apply ts_le_refl |].
      rewrite Forall_forall in Hall. now apply Hall.
    + now apply sorted_last_le.
Qed.

(** Two rows read in descending order. *)
Lemma date_range_is_first_and_last_row_witness :
  exists st,
    generate_graph iso_to_datetime
      (sort_values
         [ mkRecord (mkTimestamp 2024 1 2) None (Some 72%Q);
           mkRecord (mkTimestamp 2024 1 1) (Some 5%Q) (Some 70%Q) ])
      None None = Ok st
    /\ first_date st = Some (mkTimestamp 2024 1 1)
    /\ last_date st = Some (mkTimestamp 2024 1 2)
    /\ date_range
         (data_statistics
            (sort_values
               [ mkRecord (mkTimestamp 2024 1 2) None (Some 72%Q);
                 mkRecord (mkTimestamp 2024 1 1) (Some 5%Q) (Some 70%Q) ]))
       = (Some (mkTimestamp 2024 1 1), Some (mkTimestamp 2024 1 2)).
Proof.
  destruct (@date_range_is_first_and_last_row iso_to_datetime
              [ mkRecord (mkTimestamp 2024 1 2) None (Some 72%Q);
                mkRecord (mkTimestamp 2024 1 1) (Some 5%Q) (Some 70%Q) ])
    as (r0 & rest & st & Hdf & Hrange & Hrun & Hfirst & Hlast & _).
  - discriminate.
  - cbv in Hdf. injection Hdf as <- <-.
    exists st. split; [exact Hrun |].
    split; [exact Hfirst |]. split; [exact Hlast | exact Hrange].
Defined.

(** X19.  The moving average looks back only: the values it has for
    the rows of a column stay the same when further rows are added after
    them. *)
Theorem moving_average_looks_back (pr later : Series) :
  firstn (List.length pr) (rolling_mean 30 1 (pr ++ later))
  = rolling_mean 30 1 pr.
Proof.
  unfold rolling_mean. rewrite length_app, seq_app, map_app.
  rewrite firstn_app, length_map, length_seq, Nat.sub_diag.
  cbn [firstn]. rewrite app_nil_r.
  rewrite firstn_all2 by (rewrite length_map, length_seq; lia).
  apply map_ext_in. intros i Hi. apply in_seq in Hi.
  assert (Hwin : window_at 30 i (pr ++ later) = window_at 30 i pr).
  { unfold window_at. rewrite firstn_app.
    replace (S i - List.length pr)%nat with 0%nat by lia.
    cbn [firstn]. now rewrite app_nil_r. }
  cbn zeta. now rewrite Hwin.
Qed.

(** X20.  The budget curve restarts at 73.9 from whichever first of
    July is the epoch: from any date [d1] on, the curve anchored at [e]
    is the curve anchored at [d1], scaled by its value at [d1].  So the
    budget of one and the same day is higher when the epoch is one year
    later, as when a date range moves the first plotted date into the
    next budget year. *)
Theorem budget_depends_on_epoch (e d1 d2 : Timestamp) (y : Z) :
  (calculate_budget_pr e d2 * 73.9
   = calculate_budget_pr e d1 * calculate_budget_pr d1 d2)%R
  /\ (calculate_budget_pr (mkTimestamp y 7 1) d2
      < calculate_budget_pr (mkTimestamp (y + 1) 7 1) d2)%R.
Proof.
  assert (Hlaw : forall a b c,
             (calculate_budget_pr a c * 73.9
              = calculate_budget_pr a b * calculate_budget_pr b c)%R).
  { intros a b c. rewrite !budget_unfold. unfold days_between.
    replace (IZR (toordinal c - toordinal a) / 365.25)%R
      with (IZR (toordinal b - toordinal a) / 365.25
            + IZR (toordinal c - toordinal b) / 365.25)%R
      by (rewrite !minus_IZR; lra).
    rewrite Rpower_plus. lra. }
  split; [apply Hlaw |].
  pose proof (Hlaw (mkTimestamp y 7 1) (mkTimestamp (y + 1) 7 1) d2) as H.
  pose proof (budget_pos (mkTimestamp (y + 1) 7 1) d2) as Hpos.
  assert (Hdrop : (calculate_budget_pr (mkTimestamp y 7 1)
                     (mkTimestamp (y + 1) 7 1) < 73.9)%R).
  { pose proof (budget_at_epoch (mkTimestamp y 7 1)) as H0.
    pose proof (@budget_strict_mono (mkTimestamp y 7 1) _ _
                  (july_ordinal_grows y)) as H1.
    lra. }
  nra.
Qed.
